(** * Receipt validation handler (api/validate-receipt.js)

    A shallow embedding of the serverless function [handler] and the
    properties of its decision procedure.

    Modelling conventions.
    - JavaScript numbers are integers here ([Z]) together with [NaN]; this is
      exact for the integers the handler meets (status codes, millisecond
      time stamps), which are far below 2^53.  Beyond 2^53 JavaScript rounds
      and the model does not: statements that compare parsed dates with one
      another are made for safe integers.
    - Strings are sequences of bytes (UTF-8).
    - The decoded App Store answer is an object whose every field is
      optional ([None] is JavaScript's [undefined]); a field that is present
      has the type Apple documents for it.
    - The network is an oracle: the n-th upstream call to an endpoint either
      throws an error or returns a decoded answer.  The handler threads the
      log of the calls it has made.  A body that decodes to something other
      than an object (the JSON value null) is outside the model.
    - [console.log] lines have no influence on the answer and are left out. *)

From Stdlib Require Import ZArith List String Ascii Bool Lia.
Import ListNotations.

Local Open Scope string_scope.
Local Open Scope Z_scope.

(** ** JavaScript numbers, strings and dates *)

Inductive JSNumber : Type :=
| NaN : JSNumber
| Num : Z -> JSNumber.

(** [a - b] on numbers. *)
Definition js_sub (a b : JSNumber) : JSNumber :=
  match a, b with
  | Num x, Num y => Num (x - y)
  | _, _ => NaN
  end.

(** [a > b] on numbers: any comparison with [NaN] is false. *)
Definition js_gt (a b : JSNumber) : bool :=
  match a, b with
  | Num x, Num y => x >? y
  | _, _ => false
  end.

(** [a === b] for an optional string field against a string literal. *)
Definition strict_eq (a : option string) (b : string) : bool :=
  match a with
  | Some s => String.eqb s b
  | None => false
  end.

(** Leading white space as [parseInt] skips it: the ECMAScript WhiteSpace and
    LineTerminator code points, in their UTF-8 encoding. *)
Fixpoint trim_start (s : string) : string :=
  match s with
  | String c rest =>
      let n := nat_of_ascii c in
      if ((9 <=? n) && (n <=? 13))%nat || (n =? 32)%nat then trim_start rest
      else
        match rest with
        | String c2 rest2 =>
            let n2 := nat_of_ascii c2 in
            if (n =? 194)%nat && (n2 =? 160)%nat then trim_start rest2
            else
              match rest2 with
              | String c3 rest3 =>
                  let n3 := nat_of_ascii c3 in
                  if ((n =? 225) && (n2 =? 154) && (n3 =? 128))%nat
                     || ((n =? 226) && (n2 =? 128)
                         && ((128 <=? n3) && (n3 <=? 138)
                             || (n3 =? 168) || (n3 =? 169) || (n3 =? 175)))%nat
                     || ((n =? 226) && (n2 =? 129) && (n3 =? 159))%nat
                     || ((n =? 227) && (n2 =? 128) && (n3 =? 128))%nat
                     || ((n =? 239) && (n2 =? 187) && (n3 =? 191))%nat
                  then trim_start rest3
                  else s
              | EmptyString => s
              end
        | EmptyString => s
        end
  | EmptyString => s
  end.

(** Value of a character as a digit in the given radix (10 or 16). *)
Definition digit_value (radix : Z) (c : ascii) : option Z :=
  let n := Z.of_nat (nat_of_ascii c) in
  if (48 <=? n) && (n <=? 57) then Some (n - 48)
  else if (radix =? 16) && (97 <=? n) && (n <=? 102) then Some (n - 87)
  else if (radix =? 16) && (65 <=? n) && (n <=? 70) then Some (n - 55)
  else None.

(** The longest prefix of digits, read in the radix; [None] when the prefix
    is empty. *)
Fixpoint parse_digits (radix : Z) (acc : option Z) (s : string) : option Z :=
  match s with
  | String c rest =>
      match digit_value radix c with
      | Some d =>
          parse_digits radix
            (Some (match acc with Some a => a * radix + d | None => d end)) rest
      | None => acc
      end
  | EmptyString => acc
  end.

Definition strip_sign (s : string) : Z * string :=
  match s with
  | String "-" rest => (-1, rest)
  | String "+" rest => (1, rest)
  | _ => (1, s)
  end.

Definition strip_hex_prefix (s : string) : Z * string :=
  match s with
  | String "0" (String "x" rest) => (16, rest)
  | String "0" (String "X" rest) => (16, rest)
  | _ => (10, s)
  end.

(** [parseInt(string)] with no radix argument, on a string. *)
Definition parseInt_string (s : string) : JSNumber :=
  let (sign, s1) := strip_sign (trim_start s) in
  let (radix, s2) := strip_hex_prefix s1 in
  match parse_digits radix None s2 with
  | Some n => Num (sign * n)
  | None => NaN
  end.

(** [parseInt(x)] where [x] is an optional string field: [undefined] is
    first turned into the string "undefined", which has no digits. *)
Definition parseInt (x : option string) : JSNumber :=
  match x with
  | Some s => parseInt_string s
  | None => parseInt_string "undefined"
  end.

(** [str.includes(sub)]. *)
Fixpoint is_prefix (p s : string) : bool :=
  match p, s with
  | EmptyString, _ => true
  | String a p', String b s' => Ascii.eqb a b && is_prefix p' s'
  | String _ _, EmptyString => false
  end.

Fixpoint includes (s sub : string) : bool :=
  is_prefix sub s ||
  match s with
  | String _ s' => includes s' sub
  | EmptyString => false
  end.

(** A [Date] object is its time value; [None] is the Invalid Date, which
    JSON renders as [null].  [new Date(n)] clips to +-8.64e15 ms. *)
Definition Date : Type := option Z.

Definition new_Date (n : JSNumber) : Date :=
  match n with
  | Num t => if Z.abs t <=? 8640000000000000 then Some t else None
  | NaN => None
  end.

(** [Array.prototype.sort]: a stable sort.  The comparator's [NaN] counts as
    [+0].  For a comparator that is not a consistent ordering ECMAScript
    leaves the order to the implementation; the model fixes it to that of a
    stable insertion sort. *)
Definition SortCompare {A : Type} (comparefn : A -> A -> JSNumber) (x y : A) : Z :=
  match comparefn x y with
  | NaN => 0
  | Num v => v
  end.

Fixpoint sort_insert {A : Type} (comparefn : A -> A -> JSNumber) (x : A) (l : list A) : list A :=
  match l with
  | [] => [x]
  | y :: l' =>
      if SortCompare comparefn x y <=? 0 then x :: l
      else y :: sort_insert comparefn x l'
  end.

Definition array_sort {A : Type} (comparefn : A -> A -> JSNumber) (l : list A) : list A :=
  fold_right (sort_insert comparefn) [] l.

(** [Array.prototype.find]. *)
Definition array_find {A : Type} (p : A -> bool) (l : list A) : option A :=
  List.find p l.

(** ** The decoded upstream answer

    One record type serves the elements of [latest_receipt_info],
    [receipt.in_app] and [pending_renewal_info]: they are plain objects, and
    the handler reads from each only the fields it needs. *)

Record Item : Type := mkItem {
  product_id : option string;
  expires_date_ms : option string;
  transaction_id : option string;
  is_trial_period : option string;
  is_in_intro_offer_period : option string;
  purchase_date_ms : option string;
  auto_renew_status : option string
}.

Record Receipt : Type := mkReceipt {
  bundle_id : option string;
  in_app : option (list Item)
}.

Record AppleResponse : Type := mkAppleResponse {
  status : option Z;
  receipt : option Receipt;
  latest_receipt_info : option (list Item);
  pending_renewal_info : option (list Item)
}.

(** A thrown JavaScript error: [error.name] and [error.message]. *)
Record JSError : Type := mkError {
  name : string;
  message : option string
}.

(** ** Request and response of the handler *)

Record RequestBody : Type := mkRequestBody {
  receiptData : option string;
  bundleId : option string;
  productId : option string
}.

Record Request : Type := mkRequest {
  method : string;
  body : option RequestBody
}.

Inductive Environment : Type := production | sandbox.

Definition Environment_eqb (a b : Environment) : bool :=
  match a, b with
  | production, production | sandbox, sandbox => true
  | _, _ => false
  end.

(** The four object literals the handler assigns to [subscriptionInfo]. *)
Inductive SubscriptionInfo : Type :=
| ActiveSubscription (productId : option string) (expiresDate : Date)
    (transactionId : option string) (environment : Environment)
    (isTrialPeriod isIntroOfferPeriod : bool)
| PastPurchase (productId : option string) (transactionId : option string)
    (environment : Environment) (purchaseDate : Date)
| PendingRenewal (productId : option string) (isPending : bool)
    (environment : Environment) (autoRenewStatus : option string)
| SandboxFallback (productId : string) (environment : Environment)
    (fallback : bool).

Record Debug : Type := mkDebug {
  hasLatestReceiptInfo : bool;
  hasInApp : bool;
  hasPendingRenewal : bool
}.

(** The JSON object sent back.  A key that the object literal does not have
    (or whose value is [undefined], which JSON drops) is [None];
    [subscriptionInfo: null] is [Some None]. *)
Module Verdict.
Record t : Type := mk {
  isValid : option bool;
  error : option string;
  status : option Z;
  expired : option bool;
  environment : option Environment;
  subscriptionInfo : option (option SubscriptionInfo);
  timestamp : option Z;
  debug : option Debug
}.

(** [{ isValid: false, error: msg }] *)
Definition failure (msg : string) : t :=
  mk (Some false) (Some msg) None None None None None None.

(** The verdict with its [timestamp] key removed. *)
Definition without_timestamp (v : t) : t :=
  mk (isValid v) (error v) (status v) (expired v) (environment v)
     (subscriptionInfo v) None (debug v).
End Verdict.

(** The state of the [res] object: status code, headers in the order they
    were set, and the JSON body once [res.json] has been called ([None]
    after [res.end()]). *)
Record Response : Type := mkResponse {
  statusCode : Z;
  headers : list (string * string);
  json : option Verdict.t
}.

Definition setHeader (k v : string) (res : Response) : Response :=
  mkResponse (statusCode res) (headers res ++ [(k, v)]) (json res).

Definition res_status (code : Z) (res : Response) : Response :=
  mkResponse code (headers res) (json res).

Definition res_json (v : Verdict.t) (res : Response) : Response :=
  mkResponse (statusCode res) (headers res) (Some v).

Definition res_end (res : Response) : Response := res.

(** A fresh [res]: status 200 until [res.status] is called. *)
Definition fresh_res : Response := mkResponse 200 [] None.

(** ** The network *)

Inductive Endpoint : Type := PRODUCTION_URL | SANDBOX_URL.

Definition Endpoint_eqb (a b : Endpoint) : bool :=
  match a, b with
  | PRODUCTION_URL, PRODUCTION_URL | SANDBOX_URL, SANDBOX_URL => true
  | _, _ => false
  end.

(** One upstream call: the endpoint and the receipt posted to it. *)
Definition Call : Type := (Endpoint * string)%type.

(** The outcome of [validateWithApple]: it throws ([inl]: an [AbortError]
    after the 10 s timeout, the error of a failed [fetch], the [Error] made
    for a non-2xx answer, the [SyntaxError] of a body that is not JSON) or
    it returns the decoded body ([inr]).  The first argument is the number
    of upstream calls made before this one. *)
Definition Upstream : Type := nat -> Endpoint -> string -> JSError + AppleResponse.

(** Computations that may throw and that log their upstream calls. *)
Definition Async (A : Type) : Type := list Call -> (JSError + A) * list Call.

Definition ret {A : Type} (a : A) : Async A := fun log => (inr a, log).

Definition throw {A : Type} (e : JSError) : Async A := fun log => (inl e, log).

Definition bind {A B : Type} (m : Async A) (k : A -> Async B) : Async B :=
  fun log =>
    match m log with
    | (inl e, log') => (inl e, log')
    | (inr a, log') => k a log'
    end.

Definition try_catch {A : Type} (m : Async A) (h : JSError -> Async A) : Async A :=
  fun log =>
    match m log with
    | (inl e, log') => h e log'
    | (inr a, log') => (inr a, log')
    end.

Notation "x <- m ;; k" := (bind m (fun x => k))
  (at level 61, m at next level, right associativity).

Definition validateWithApple (upstream : Upstream) (receiptData : string)
    (url : Endpoint) : Async AppleResponse :=
  fun log => (upstream (List.length log) url receiptData, (log ++ [(url, receiptData)])%list).

(** ** The handler *)

Definition BUNDLE_ID : string := "com.elevenstoic.app".
Definition MONTHLY : string := "com.elevenstoic.monthly".

(** [5 * 60 * 1000]: five minutes in milliseconds. *)
Definition gracePeriod : Z := 5 * 60 * 1000.

(** The error thrown by [const { receiptData, bundleId, productId } = req.body]
    when the request has no body. *)
Definition destructure_error : JSError :=
  mkError "TypeError"
    (Some "Cannot destructure property 'receiptData' of 'req.body' as it is undefined.").

(** [response.status === code] *)
Definition status_is (st : option Z) (code : Z) : bool :=
  match st with
  | Some c => c =? code
  | None => false
  end.

(** Lines 78-108: production first, sandbox on status 21007 or after a
    throw.  [inl] is the early [return res.status(500).json(...)]; [inr] is
    the pair of [response] and [environment] the rest of the handler uses. *)
Definition select_environment (upstream : Upstream) (receiptData : string)
    (res : Response) : Async (Response + AppleResponse * Environment) :=
  try_catch
    (response <- validateWithApple upstream receiptData PRODUCTION_URL ;;
     if status_is (status response) 21007 then
       response' <- validateWithApple upstream receiptData SANDBOX_URL ;;
       ret (inr (response', sandbox))
     else ret (inr (response, production)))
    (fun prodError =>
       try_catch
         (response <- validateWithApple upstream receiptData SANDBOX_URL ;;
          ret (inr (response, sandbox)))
         (fun sandboxError =>
            ret (inl (res_json (Verdict.failure "Receipt validation failed with Apple")
                               (res_status 500 res))))).


(** The table [statusMeanings]. *)
Definition statusMeanings (code : Z) : option string :=
  match code with
  | 21000 => Some "The App Store could not read the JSON object you provided."
  | 21002 => Some "The data in the receipt-data property was malformed or missing."
  | 21003 => Some "The receipt could not be authenticated."
  | 21004 => Some "The shared secret you provided does not match the shared secret on file for your account."
  | 21005 => Some "The receipt server is not currently available."
  | 21006 => Some "This receipt is valid but the subscription has expired."
  | 21007 => Some "This receipt is from the sandbox environment, but it was sent to the production environment for verification."
  | 21008 => Some "This receipt is from the production environment, but it was sent to the sandbox environment for verification."
  | 21010 => Some "This receipt could not be authorized. Treat this the same as if a purchase was never made."
  | _ => None
  end.

(** [statusMeanings[response.status] || 'Unknown error'] *)
Definition statusMeaning (st : option Z) : string :=
  match st with
  | Some code =>
      match statusMeanings code with
      | Some m => m
      | None => "Unknown error"
      end
  | None => "Unknown error"
  end.

(** Lines 113-146: the answer for a status other than 0. *)
Definition status_failure (st : option Z) (res : Response) : Response :=
  if status_is st 21006 then
    res_json (Verdict.mk (Some false) (Some "Subscription has expired") st
                (Some true) None None None None) res
  else
    res_json (Verdict.mk (Some false)
                (Some ("Receipt validation failed: " ++ statusMeaning st)) st
                None None None None None) res.

(** The two variables the detection methods assign. *)
Record DetectState : Type := mkState {
  isValidSubscription : bool;
  subscriptionInfo : option SubscriptionInfo
}.

Definition initial_state : DetectState := mkState false None.

(** [x.product_id === 'com.elevenstoic.monthly'] *)
Definition is_monthly (x : Item) : bool := strict_eq (product_id x) MONTHLY.

(** [(a, b) => parseInt(b.expires_date_ms) - parseInt(a.expires_date_ms)] *)
Definition by_expires_desc (a b : Item) : JSNumber :=
  js_sub (parseInt (expires_date_ms b)) (parseInt (expires_date_ms a)).

(** [(a, b) => parseInt(b.purchase_date_ms) - parseInt(a.purchase_date_ms)] *)
Definition by_purchase_desc (a b : Item) : JSNumber :=
  js_sub (parseInt (purchase_date_ms b)) (parseInt (purchase_date_ms a)).

(** Lines 180-200: the expiry test on the selected transaction. *)
Definition check_expiry (latestTransaction : Item) (environment : Environment)
    (currentDate : Z) (st : DetectState) : DetectState :=
  let expirationDate := parseInt (expires_date_ms latestTransaction) in
  if js_gt expirationDate (Num (currentDate - gracePeriod)) then
    mkState true
      (Some (ActiveSubscription (product_id latestTransaction)
               (new_Date expirationDate)
               (transaction_id latestTransaction)
               environment
               (strict_eq (is_trial_period latestTransaction) "true")
               (strict_eq (is_in_intro_offer_period latestTransaction) "true")))
  else st.

(** Lines 165-172: the transaction method 1 looks at, if any. *)
Definition latestTransaction (response : AppleResponse) : option Item :=
  match latest_receipt_info response with
  | Some infos =>
      if (0 <? Z.of_nat (List.length infos)) then
        let relevantTransactions := filter is_monthly infos in
        if (0 <? Z.of_nat (List.length relevantTransactions)) then
          hd_error (array_sort by_expires_desc relevantTransactions)
        else None
      else None
  | None => None
  end.

(** Method 1 (lines 161-202): [latest_receipt_info]. *)
Definition method1 (response : AppleResponse) (environment : Environment)
    (currentDate : Z) (st : DetectState) : DetectState :=
  match latestTransaction response with
  | Some t => check_expiry t environment currentDate st
  | None => st
  end.

(** Method 2 (lines 204-226): the [in_app] array. *)
Definition method2 (response : AppleResponse) (environment : Environment)
    (st : DetectState) : DetectState :=
  if negb (isValidSubscription st) then
    match receipt response with
    | Some rc =>
        match in_app rc with
        | Some purchases =>
            let relevantPurchases := filter is_monthly purchases in
            if (0 <? Z.of_nat (List.length relevantPurchases)) then
              match array_sort by_purchase_desc relevantPurchases with
              | latestPurchase :: _ =>
                  mkState true
                    (Some (PastPurchase (product_id latestPurchase)
                             (transaction_id latestPurchase)
                             environment
                             (new_Date (parseInt (purchase_date_ms latestPurchase)))))
              | [] => st
              end
            else st
        | None => st
        end
    | None => st
    end
  else st.

(** Method 3 (lines 228-246): [pending_renewal_info], sandbox only. *)
Definition method3 (response : AppleResponse) (environment : Environment)
    (st : DetectState) : DetectState :=
  if negb (isValidSubscription st) then
    match pending_renewal_info response with
    | Some renewals =>
        if Environment_eqb environment sandbox then
          match array_find is_monthly renewals with
          | Some pendingRenewal =>
              if strict_eq (auto_renew_status pendingRenewal) "1" then
                mkState true
                  (Some (PendingRenewal (product_id pendingRenewal) true
                           environment (auto_renew_status pendingRenewal)))
              else st
          | None => st
          end
        else st
    | None => st
    end
  else st.

(** [response.receipt?.bundle_id] *)
Definition receipt_bundle_id (response : AppleResponse) : option string :=
  match receipt response with
  | Some rc => bundle_id rc
  | None => None
  end.

(** The sandbox fallback (lines 248-258). *)
Definition method4 (response : AppleResponse) (environment : Environment)
    (st : DetectState) : DetectState :=
  if negb (isValidSubscription st)
     && Environment_eqb environment sandbox
     && strict_eq (receipt_bundle_id response) BUNDLE_ID
  then mkState true (Some (SandboxFallback MONTHLY environment true))
  else st.

(** Lines 157-258: the four methods in order. *)
Definition detect (response : AppleResponse) (environment : Environment)
    (currentDate : Z) : DetectState :=
  method4 response environment
    (method3 response environment
       (method2 response environment
          (method1 response environment currentDate initial_state))).

(** [!!(xs && xs.length > 0)] *)
Definition present_nonempty {A : Type} (xs : option (list A)) : bool :=
  match xs with
  | Some (_ :: _) => true
  | _ => false
  end.

(** The [debug] object of lines 273-279. *)
Definition debug_info (response : AppleResponse) : Debug :=
  mkDebug (present_nonempty (latest_receipt_info response))
          (present_nonempty (match receipt response with
                             | Some rc => in_app rc
                             | None => None
                             end))
          (present_nonempty (pending_renewal_info response)).

(** Lines 260-280: cache header and final JSON. *)
Definition final_verdict (response : AppleResponse) (environment : Environment)
    (st : DetectState) (stamp : Z) (res : Response) : Response :=
  let res' :=
    if isValidSubscription st
    then setHeader "Cache-Control" "private, max-age=300" res
    else res in
  res_json
    (Verdict.mk (Some (isValidSubscription st)) None None None
       (Some environment) (Some (subscriptionInfo st)) (Some stamp)
       (if Environment_eqb environment sandbox
        then Some (debug_info response) else None))
    res'.

(** Lines 110-280: everything after the upstream answer has been adopted.
    [currentDate] is the reading of [Date.now()] on line 182 and [stamp] the
    instant of [new Date()] on line 271. *)
Definition classify (response : AppleResponse) (environment : Environment)
    (currentDate stamp : Z) (res : Response) : Response :=
  if negb (status_is (status response) 0) then
    status_failure (status response) res
  else if negb (strict_eq (receipt_bundle_id response) BUNDLE_ID) then
    res_json (Verdict.failure "Bundle ID mismatch") res
  else
    final_verdict response environment
      (detect response environment currentDate) stamp res.

(** [!receiptData] for an optional string. *)
Definition falsy (x : option string) : bool :=
  match x with
  | Some s => String.eqb s ""
  | None => true
  end.

(** The body of the outer [try] (lines 20-280). *)
Definition handler_try (req : Request) (upstream : Upstream)
    (currentDate stamp : Z) (res : Response) : Async Response :=
  match body req with
  | None => throw destructure_error
  | Some b =>
      if falsy (receiptData b) then
        ret (res_json (Verdict.failure "Receipt data is required") (res_status 400 res))
      else if negb (strict_eq (bundleId b) BUNDLE_ID) then
        ret (res_json (Verdict.failure "Invalid bundle ID") (res_status 400 res))
      else
        r <- select_environment upstream
               (match receiptData b with Some s => s | None => "" end) res ;;
        match r with
        | inl early => ret early
        | inr (response, environment) =>
            ret (classify response environment currentDate stamp res)
        end
  end.

(** The outer [catch] (lines 282-304). *)
Definition handler_catch (error : JSError) (res : Response) : Response :=
  if String.eqb (name error) "AbortError" then
    res_json (Verdict.failure "Request timeout - Apple servers did not respond in time")
             (res_status 408 res)
  else if match message error with
          | Some m => includes m "fetch"
          | None => false
          end then
    res_json (Verdict.failure "Unable to connect to Apple servers") (res_status 502 res)
  else
    res_json (Verdict.failure "Internal server error during validation")
             (res_status 500 res).

(** [{ error: 'Method not allowed' }] *)
Definition method_not_allowed : Verdict.t :=
  Verdict.mk None (Some "Method not allowed") None None None None None None.

(** [res] after the three CORS headers of lines 4-6. *)
Definition cors_res : Response :=
  setHeader "Access-Control-Allow-Headers" "Content-Type"
    (setHeader "Access-Control-Allow-Methods" "GET, POST, OPTIONS"
       (setHeader "Access-Control-Allow-Origin" "*" fresh_res)).

(** The exported [handler]: the final state of [res] and the upstream calls
    made, in order. *)
Definition handler (req : Request) (upstream : Upstream)
    (currentDate stamp : Z) : Response * list Call :=
  let res := cors_res in
  if String.eqb (method req) "OPTIONS" then (res_end (res_status 200 res), [])
  else if negb (String.eqb (method req) "POST") then
    (res_json method_not_allowed (res_status 405 res), [])
  else
    match handler_try req upstream currentDate stamp res [] with
    | (inr out, log) => (out, log)
    | (inl error, log) => (handler_catch error res, log)
    end.

(** The upstream calls of a run, and its answer. *)
Definition calls_of (req : Request) (upstream : Upstream) (currentDate stamp : Z) : list Call :=
  snd (handler req upstream currentDate stamp).

Definition response_of (req : Request) (upstream : Upstream) (currentDate stamp : Z) : Response :=
  fst (handler req upstream currentDate stamp).

(** A POST for a receipt of this app; the product named by the client is
    only logged. *)
Definition post (receipt_blob : string) (product : option string) : Request :=
  mkRequest "POST" (Some (mkRequestBody (Some receipt_blob) (Some BUNDLE_ID) product)).

(** The answer of lines 103-106, when both environments failed. *)
Definition gave_up (res : Response) : Response :=
  res_json (Verdict.failure "Receipt validation failed with Apple") (res_status 500 res).

(** ** Observations on a run *)

(** The answer and environment adopted after the upstream calls, if the
    handler did not give up. *)
Definition adopted (upstream : Upstream) (receiptData : string)
    : option (AppleResponse * Environment) :=
  match fst (select_environment upstream receiptData cors_res []) with
  | inr (inr p) => Some p
  | _ => None
  end.

(** Keys of the JSON body of an answer. *)
Definition verdict_isValid (out : Response) : option bool :=
  match json out with Some v => Verdict.isValid v | None => None end.

Definition verdict_environment (out : Response) : option Environment :=
  match json out with Some v => Verdict.environment v | None => None end.

Definition verdict_subscriptionInfo (out : Response) : option (option SubscriptionInfo) :=
  match json out with Some v => Verdict.subscriptionInfo v | None => None end.

(** An answer with the [timestamp] key of its body removed. *)
Definition without_timestamp (out : Response) : Response :=
  mkResponse (statusCode out) (headers out)
    (option_map Verdict.without_timestamp (json out)).

(** The outcome of the expiry test of method 1 at a clock reading. *)
Definition active_at (response : AppleResponse) (currentDate : Z) : bool :=
  isValidSubscription (method1 response production currentDate initial_state).

(** The invariant tying the two detection variables together. *)
Definition state_ok (st : DetectState) : Prop :=
  isValidSubscription st = true -> subscriptionInfo st <> None.

(** ** Scenarios used as concrete inputs *)

(** A stub upstream that answers each endpoint the same way on every call. *)
Definition stub (prod sand : JSError + AppleResponse) : Upstream :=
  fun _ url _ =>
    match url with
    | PRODUCTION_URL => prod
    | SANDBOX_URL => sand
    end.

Definition timeout_error : JSError :=
  mkError "AbortError" (Some "This operation was aborted").

Definition network_error : JSError :=
  mkError "TypeError" (Some "fetch failed").

Definition status_only (code : Z) : AppleResponse :=
  mkAppleResponse (Some code) None None None.

Definition transaction (expires : string) (tid : string) : Item :=
  mkItem (Some MONTHLY) (Some expires) (Some tid) (Some "false") (Some "false")
         None None.

Definition purchase (purchased : string) (tid : string) : Item :=
  mkItem (Some MONTHLY) None (Some tid) None None (Some purchased) None.

(** Status 0 for this app with the given subscription history. *)
Definition accepted (infos : option (list Item)) (purchases : option (list Item))
    : AppleResponse :=
  mkAppleResponse (Some 0) (Some (mkReceipt (Some BUNDLE_ID) purchases)) infos None.

(** ** Further observations *)

(** The [environment] property of a [subscriptionInfo] object. *)
Definition info_environment (i : SubscriptionInfo) : Environment :=
  match i with
  | ActiveSubscription _ _ _ e _ _ => e
  | PastPurchase _ _ e _ => e
  | PendingRenewal _ _ e _ => e
  | SandboxFallback _ e _ => e
  end.

(** The [productId] property of a [subscriptionInfo] object. *)
Definition info_productId (i : SubscriptionInfo) : option string :=
  match i with
  | ActiveSubscription p _ _ _ _ _ => p
  | PastPurchase p _ _ _ => p
  | PendingRenewal p _ _ _ => p
  | SandboxFallback p _ _ => Some p
  end.

(** [response.receipt?.in_app] *)
Definition receipt_in_app (response : AppleResponse) : option (list Item) :=
  match receipt response with
  | Some rc => in_app rc
  | None => None
  end.

(** The purchases method 2 sorts: [relevantPurchases], empty when there is
    no [in_app] array. *)
Definition relevantPurchases (response : AppleResponse) : list Item :=
  match receipt_in_app response with
  | Some purchases => filter is_monthly purchases
  | None => []
  end.

(** The header of line 264. *)
Definition cache_header : string * string :=
  ("Cache-Control", "private, max-age=300").

(** The status codes that have an entry in [statusMeanings]. *)
Definition known_statuses : list Z :=
  [21000; 21002; 21003; 21004; 21005; 21006; 21007; 21008; 21010].

(** [Number.isSafeInteger]: an integer of magnitude at most 2^53 - 1.  On
    these, numbers here and JavaScript's doubles agree exactly. *)
Definition isSafeInteger (n : JSNumber) : bool :=
  match n with
  | Num z => Z.abs z <=? 9007199254740991
  | NaN => false
  end.



(** * Properties *)

(** ** [parseInt] on examples *)

Example parseInt_plain : parseInt (Some "1700000000000") = Num 1700000000000.
Proof. reflexivity. Qed.

Example parseInt_prefix : parseInt (Some "  42abc") = Num 42.
Proof. reflexivity. Qed.

Example parseInt_hex : parseInt (Some "-0x1F") = Num (-31).
Proof. reflexivity. Qed.

Example parseInt_empty : parseInt (Some "") = NaN.
Proof. reflexivity. Qed.

Example parseInt_undefined : parseInt None = NaN.
Proof. reflexivity. Qed.

(** ** Sorting *)

Section Sorting.
Context {A : Type} (comparefn : A -> A -> JSNumber).

Lemma sort_insert_In (x y : A) (l : list A) :
  In y (sort_insert comparefn x l) <-> y = x \/ In y l.
Proof.
  induction l as [|z l IH]; simpl.
  - intuition congruence.
  - destruct (SortCompare comparefn x z <=? 0); simpl.
    + intuition congruence.
    + rewrite IH. intuition congruence.
Qed.

Lemma array_sort_In (y : A) (l : list A) :
  In y (array_sort comparefn l) <-> In y l.
Proof.
  induction l as [|x l IH]; simpl.
  - tauto.
  - rewrite sort_insert_In, IH. intuition congruence.
Qed.

Lemma sort_insert_length (x : A) (l : list A) :
  List.length (sort_insert comparefn x l) = S (List.length l).
Proof.
  induction l as [|z l IH]; simpl; [reflexivity|].
  destruct (SortCompare comparefn x z <=? 0); simpl; congruence.
Qed.

Lemma array_sort_length (l : list A) :
  List.length (array_sort comparefn l) = List.length l.
Proof.
  induction l as [|x l IH]; simpl; [reflexivity|].
  now rewrite sort_insert_length, IH.
Qed.

(** The head of [sort_insert x l] is [x] or the head of [l]. *)
Lemma sort_insert_hd (x : A) (l : list A) :
  hd_error (sort_insert comparefn x l) =
  match l with
  | [] => Some x
  | y :: _ => if SortCompare comparefn x y <=? 0 then Some x else Some y
  end.
Proof.
  destruct l as [|y l]; simpl; [reflexivity|].
  destruct (SortCompare comparefn x y <=? 0); reflexivity.
Qed.

(** When the comparator is [key b - key a] on the elements of the array,
    the first element after sorting has the greatest key. *)
Lemma array_sort_hd_max (key : A -> Z) (l : list A) :
  (forall a b, In a l -> In b l -> comparefn a b = Num (key b - key a)) ->
  l <> [] ->
  exists t, hd_error (array_sort comparefn l) = Some t /\ In t l /\
            forall x, In x l -> key x <= key t.
Proof.
  induction l as [|x l IH]; intros Hcmp Hne; [congruence|].
  simpl array_sort. rewrite sort_insert_hd.
  destruct l as [|x' l'].
  - simpl. exists x. repeat split; simpl; auto.
    intros y [->|[]]. lia.
  - destruct IH as (t & Hhd & Hin & Hmax).
    + intros a b Ha Hb. apply Hcmp; now right.
    + discriminate.
    + destruct (array_sort comparefn (x' :: l')) as [|y ys] eqn:E;
        [discriminate|].
      simpl in Hhd. injection Hhd as ->.
      unfold SortCompare. rewrite (Hcmp x t); [|now left|now right].
      destruct (key t - key x <=? 0) eqn:Hle.
      * exists x. repeat split; [now left|].
        intros z [->|Hz]; [lia|].
        specialize (Hmax z Hz). lia.
      * exists t. repeat split; [now right|].
        intros z [->|Hz]; [lia|].
        now apply Hmax.
Qed.
End Sorting.

(** ** Tests on optional fields *)

Lemma status_is_true (st : option Z) (code : Z) :
  status_is st code = true <-> st = Some code.
Proof.
  unfold status_is. destruct st as [c|].
  - rewrite Z.eqb_eq. split; congruence.
  - split; discriminate.
Qed.

Lemma status_is_false (st : option Z) (code : Z) :
  status_is st code = false <-> st <> Some code.
Proof.
  rewrite <- status_is_true. destruct (status_is st code); split; congruence.
Qed.

Lemma strict_eq_true (a : option string) (b : string) :
  strict_eq a b = true <-> a = Some b.
Proof.
  unfold strict_eq. destruct a as [s|].
  - rewrite String.eqb_eq. split; congruence.
  - split; discriminate.
Qed.

(** ** The upstream calls *)

(** Every run of lines 78-108, by the outcomes of the calls. *)
Lemma select_environment_run (upstream : Upstream) (rd : string) (res : Response) :
  select_environment upstream rd res [] =
  match upstream 0%nat PRODUCTION_URL rd with
  | inr r =>
      if status_is (status r) 21007 then
        match upstream 1%nat SANDBOX_URL rd with
        | inr r' => (inr (inr (r', sandbox)), [(PRODUCTION_URL, rd); (SANDBOX_URL, rd)])
        | inl _ =>
            match upstream 2%nat SANDBOX_URL rd with
            | inr r'' =>
                (inr (inr (r'', sandbox)),
                 [(PRODUCTION_URL, rd); (SANDBOX_URL, rd); (SANDBOX_URL, rd)])
            | inl _ =>
                (inr (inl (gave_up res)),
                 [(PRODUCTION_URL, rd); (SANDBOX_URL, rd); (SANDBOX_URL, rd)])
            end
        end
      else (inr (inr (r, production)), [(PRODUCTION_URL, rd)])
  | inl _ =>
      match upstream 1%nat SANDBOX_URL rd with
      | inr r' => (inr (inr (r', sandbox)), [(PRODUCTION_URL, rd); (SANDBOX_URL, rd)])
      | inl _ => (inr (inl (gave_up res)), [(PRODUCTION_URL, rd); (SANDBOX_URL, rd)])
      end
  end.
Proof.
  unfold select_environment, try_catch, bind, validateWithApple, ret, gave_up.
  simpl.
  destruct (upstream 0%nat PRODUCTION_URL rd) as [e|r]; simpl.
  - destruct (upstream 1%nat SANDBOX_URL rd); reflexivity.
  - destruct (status_is (status r) 21007); simpl; [|reflexivity].
    destruct (upstream 1%nat SANDBOX_URL rd); simpl; [|reflexivity].
    destruct (upstream 2%nat SANDBOX_URL rd); reflexivity.
Qed.

(** The upstream calls never throw past lines 78-108. *)
Lemma select_environment_catches (upstream : Upstream) (rd : string) (res : Response) :
  exists r log, select_environment upstream rd res [] = (inr r, log).
Proof.
  rewrite select_environment_run.
  repeat match goal with
         | |- context [match ?x with _ => _ end] => destruct x
         end; eauto.
Qed.

(** A well-formed POST runs the upstream selection and then the
    classification of the adopted answer. *)
Lemma handler_post (rd : string) (product : option string) (upstream : Upstream)
    (currentDate stamp : Z) :
  falsy (Some rd) = false ->
  handler (post rd product) upstream currentDate stamp =
  match select_environment upstream rd cors_res [] with
  | (inr (inl early), log) => (early, log)
  | (inr (inr (response, environment)), log) =>
      (classify response environment currentDate stamp cors_res, log)
  | (inl error, log) => (handler_catch error cors_res, log)
  end.
Proof.
  intros Hrd. unfold handler, post, handler_try.
  cbn [body receiptData bundleId method]. rewrite Hrd.
  change (strict_eq (Some BUNDLE_ID) BUNDLE_ID) with true.
  change (String.eqb "POST" "OPTIONS") with false.
  change (String.eqb "POST" "POST") with true.
  cbn [negb].
  unfold bind, ret.
  destruct (select_environment upstream rd cors_res []) as [[e|[early|[r env]]] log];
    reflexivity.
Qed.

Lemma handler_adopted (rd : string) (product : option string) (upstream : Upstream)
    (currentDate stamp : Z) (r : AppleResponse) (env : Environment) :
  falsy (Some rd) = false ->
  adopted upstream rd = Some (r, env) ->
  response_of (post rd product) upstream currentDate stamp =
  classify r env currentDate stamp cors_res.
Proof.
  intros Hrd Had. unfold response_of. rewrite handler_post by assumption.
  unfold adopted in Had.
  destruct (select_environment upstream rd cors_res []) as [[e|[early|[r' env']]] log];
    simpl in Had; try discriminate.
  now injection Had as -> ->.
Qed.

Lemma calls_post (rd : string) (product : option string) (upstream : Upstream)
    (currentDate stamp : Z) :
  falsy (Some rd) = false ->
  calls_of (post rd product) upstream currentDate stamp =
  snd (select_environment upstream rd cors_res []).
Proof.
  intros Hrd. unfold calls_of. rewrite handler_post by assumption.
  destruct (select_environment upstream rd cors_res []) as [[e|[early|[r env]]] log];
    reflexivity.
Qed.

(** No run makes more than three upstream calls. *)
Lemma calls_at_most_three (rd : string) (product : option string)
    (upstream : Upstream) (currentDate stamp : Z) :
  falsy (Some rd) = false ->
  (List.length (calls_of (post rd product) upstream currentDate stamp) <= 3)%nat.
Proof.
  intros Hrd. rewrite calls_post by assumption.
  rewrite select_environment_run.
  repeat match goal with
         | |- context [match ?x with _ => _ end] => destruct x
         end; simpl; lia.
Qed.

(** A third call happens only when the re-routed sandbox call throws. *)
Lemma calls_at_most_two_unless_reroute_throws (rd : string) (product : option string)
    (upstream : Upstream) (currentDate stamp : Z) :
  falsy (Some rd) = false ->
  (2 < List.length (calls_of (post rd product) upstream currentDate stamp))%nat ->
  exists r e,
    upstream 0%nat PRODUCTION_URL rd = inr r /\
    status r = Some 21007 /\
    upstream 1%nat SANDBOX_URL rd = inl e.
Proof.
  intros Hrd. rewrite calls_post by assumption.
  rewrite select_environment_run.
  destruct (upstream 0%nat PRODUCTION_URL rd) as [e|r].
  - destruct (upstream 1%nat SANDBOX_URL rd); simpl; lia.
  - destruct (status_is (status r) 21007) eqn:E; [|simpl; lia].
    destruct (upstream 1%nat SANDBOX_URL rd) as [e|r'] eqn:E1; [|simpl; lia].
    intros _. exists r, e. repeat split.
    unfold status_is in E. destruct (status r) as [c|]; [|discriminate].
    apply Z.eqb_eq in E. now subst.
Qed.

(** The sandbox endpoint is called only after the production call threw or
    answered with status 21007. *)
Lemma sandbox_called_only_after_failure_or_21007 (rd : string)
    (product : option string) (upstream : Upstream) (currentDate stamp : Z) :
  falsy (Some rd) = false ->
  In (SANDBOX_URL, rd) (calls_of (post rd product) upstream currentDate stamp) ->
  (exists e, upstream 0%nat PRODUCTION_URL rd = inl e) \/
  (exists r, upstream 0%nat PRODUCTION_URL rd = inr r /\ status r = Some 21007).
Proof.
  intros Hrd. rewrite calls_post by assumption.
  rewrite select_environment_run.
  destruct (upstream 0%nat PRODUCTION_URL rd) as [e|r]; [eauto|].
  destruct (status_is (status r) 21007) eqn:E.
  - intros _. right. exists r. split; [reflexivity|].
    unfold status_is in E. destruct (status r) as [c|]; [|discriminate].
    apply Z.eqb_eq in E. now subst.
  - simpl. intros [H|[]]. discriminate.
Qed.

(** Input validation failures make no upstream call. *)
Lemma no_call_on_invalid_input (req : Request) (b : RequestBody)
    (upstream : Upstream) (currentDate stamp : Z) :
  method req = "POST" ->
  body req = Some b ->
  falsy (receiptData b) = true \/ strict_eq (bundleId b) BUNDLE_ID = false ->
  calls_of req upstream currentDate stamp = [] /\
  verdict_isValid (response_of req upstream currentDate stamp) = Some false /\
  statusCode (response_of req upstream currentDate stamp) = 400.
Proof.
  intros Hm Hb H. unfold calls_of, response_of, handler, handler_try.
  rewrite Hm, Hb.
  change (String.eqb "POST" "OPTIONS") with false.
  change (String.eqb "POST" "POST") with true.
  cbn [negb].
  destruct (falsy (receiptData b)); [now repeat split|].
  destruct H as [H|H]; [discriminate|]. rewrite H. now repeat split.
Qed.

(** C1 (defect).  When production answers with status 21007 and the
    re-routed sandbox call throws, the [catch] written for a production
    failure runs and calls the sandbox endpoint a second time: three
    upstream calls in all, two of them to the sandbox. *)
Theorem C1_three_calls_when_reroute_throws :
  forall (rd : string) (product : option string) (upstream : Upstream)
         (currentDate stamp : Z) (r : AppleResponse) (e : JSError),
    falsy (Some rd) = false ->
    upstream 0%nat PRODUCTION_URL rd = inr r ->
    status r = Some 21007 ->
    upstream 1%nat SANDBOX_URL rd = inl e ->
    calls_of (post rd product) upstream currentDate stamp =
      [(PRODUCTION_URL, rd); (SANDBOX_URL, rd); (SANDBOX_URL, rd)] /\
    (2 < List.length (calls_of (post rd product) upstream currentDate stamp))%nat.
Proof.
  intros rd product upstream currentDate stamp r e Hrd H0 Hst H1.
  assert (Hc : calls_of (post rd product) upstream currentDate stamp =
               [(PRODUCTION_URL, rd); (SANDBOX_URL, rd); (SANDBOX_URL, rd)]).
  { rewrite calls_post by assumption.
    rewrite select_environment_run, H0, H1.
    rewrite (proj2 (status_is_true (status r) 21007) Hst).
    destruct (upstream 2%nat SANDBOX_URL rd); reflexivity. }
  split; [exact Hc|]. rewrite Hc. simpl. lia.
Qed.

Lemma C1_three_calls_when_reroute_throws_witness :
  falsy (Some "receipt") = false /\
  calls_of (post "receipt" None)
           (stub (inr (status_only 21007)) (inl timeout_error)) 0 0 =
  [(PRODUCTION_URL, "receipt"); (SANDBOX_URL, "receipt"); (SANDBOX_URL, "receipt")].
Proof.
  split; [reflexivity|].
  exact (proj1 (C1_three_calls_when_reroute_throws "receipt" None
                  (stub (inr (status_only 21007)) (inl timeout_error)) 0 0
                  (status_only 21007) timeout_error
                  eq_refl eq_refl eq_refl eq_refl)).
Defined.

(** C5 (defect).  When the production call and the fallback sandbox call
    both throw, the answer is that of lines 103-106 whatever the two errors
    are, time-outs included: HTTP status 500, [isValid: false], the error
    text "Receipt validation failed with Apple" and no environment.  The
    outer [catch] of the handler would turn a time-out into 408 and a
    failed fetch into 502, but these errors never reach it. *)
Theorem C5_both_fail_is_500_for_any_cause :
  forall (rd : string) (product : option string) (upstream : Upstream)
         (currentDate stamp : Z) (e1 e2 : JSError),
    falsy (Some rd) = false ->
    upstream 0%nat PRODUCTION_URL rd = inl e1 ->
    upstream 1%nat SANDBOX_URL rd = inl e2 ->
    handler (post rd product) upstream currentDate stamp =
      (mkResponse 500 (headers cors_res)
         (Some (Verdict.failure "Receipt validation failed with Apple")),
       [(PRODUCTION_URL, rd); (SANDBOX_URL, rd)]) /\
    statusCode (handler_catch timeout_error cors_res) = 408 /\
    statusCode (handler_catch network_error cors_res) = 502.
Proof.
  intros rd product upstream currentDate stamp e1 e2 Hrd H1 H2.
  split; [|split; reflexivity].
  rewrite handler_post by assumption.
  rewrite select_environment_run, H1, H2. reflexivity.
Qed.

Lemma C5_both_fail_is_500_for_any_cause_witness :
  falsy (Some "receipt") = false /\
  statusCode
    (response_of (post "receipt" None)
                 (stub (inl timeout_error) (inl timeout_error)) 0 0) = 500 /\
  statusCode
    (response_of (post "receipt" None)
                 (stub (inl network_error) (inl network_error)) 0 0) = 500.
Proof.
  split; [reflexivity|]. unfold response_of. split.
  - rewrite (proj1 (C5_both_fail_is_500_for_any_cause "receipt" None
                      (stub (inl timeout_error) (inl timeout_error)) 0 0
                      timeout_error timeout_error eq_refl eq_refl eq_refl)).
    reflexivity.
  - rewrite (proj1 (C5_both_fail_is_500_for_any_cause "receipt" None
                      (stub (inl network_error) (inl network_error)) 0 0
                      network_error network_error eq_refl eq_refl eq_refl)).
    reflexivity.
Defined.

(** ** Classification of the adopted answer *)

(** The [environment] key is present exactly on the final verdict. *)
Lemma classify_environment (r : AppleResponse) (env : Environment)
    (currentDate stamp : Z) (res : Response) :
  verdict_environment (classify r env currentDate stamp res) =
  if status_is (status r) 0 && strict_eq (receipt_bundle_id r) BUNDLE_ID
  then Some env else None.
Proof.
  unfold classify, status_failure, final_verdict, verdict_environment.
  destruct (status_is (status r) 0); simpl.
  - destruct (strict_eq (receipt_bundle_id r) BUNDLE_ID); reflexivity.
  - destruct (status_is (status r) 21006); reflexivity.
Qed.

(** C2 (as stated, refuted).  Production answers 21007 and the sandbox call
    answers with status 21003: one additional call is made and its result is
    adopted, but the verdict has no [environment] key at all. *)
Lemma C2_counterexample :
  ~ (forall r,
       stub (inr (status_only 21007)) (inr (status_only 21003))
            0%nat PRODUCTION_URL "receipt" = inr r ->
       status r = Some 21007 ->
       calls_of (post "receipt" None)
                (stub (inr (status_only 21007)) (inr (status_only 21003))) 0 0
       = [(PRODUCTION_URL, "receipt"); (SANDBOX_URL, "receipt")] /\
       verdict_environment
         (response_of (post "receipt" None)
                      (stub (inr (status_only 21007)) (inr (status_only 21003))) 0 0)
       = Some sandbox).
Proof.
  intros H.
  destruct (H (status_only 21007) eq_refl eq_refl) as [_ E].
  vm_compute in E. discriminate E.
Qed.

(** C2 (amended).  When production answers with status 21007 and the
    re-routed sandbox call returns, exactly two calls are made with the same
    receipt, the sandbox answer is adopted with environment sandbox whatever
    its status, and the verdict is the classification of that answer; its
    [environment] key is "sandbox" when the sandbox status is 0 and the
    bundle id matches, and is absent otherwise. *)
Theorem C2_reroute_adopts_sandbox :
  forall (rd : string) (product : option string) (upstream : Upstream)
         (currentDate stamp : Z) (r r' : AppleResponse),
    falsy (Some rd) = false ->
    upstream 0%nat PRODUCTION_URL rd = inr r ->
    status r = Some 21007 ->
    upstream 1%nat SANDBOX_URL rd = inr r' ->
    calls_of (post rd product) upstream currentDate stamp
      = [(PRODUCTION_URL, rd); (SANDBOX_URL, rd)] /\
    adopted upstream rd = Some (r', sandbox) /\
    response_of (post rd product) upstream currentDate stamp
      = classify r' sandbox currentDate stamp cors_res /\
    verdict_environment (response_of (post rd product) upstream currentDate stamp)
      = if status_is (status r') 0 && strict_eq (receipt_bundle_id r') BUNDLE_ID
        then Some sandbox else None.
Proof.
  intros rd product upstream currentDate stamp r r' Hrd H0 Hst H1.
  assert (Hsel : select_environment upstream rd cors_res [] =
                 (inr (inr (r', sandbox)),
                  [(PRODUCTION_URL, rd); (SANDBOX_URL, rd)])).
  { rewrite select_environment_run, H0, H1.
    now rewrite (proj2 (status_is_true (status r) 21007) Hst). }
  assert (Had : adopted upstream rd = Some (r', sandbox)).
  { unfold adopted. now rewrite Hsel. }
  split; [|split; [exact Had|split]].
  - rewrite calls_post by assumption. now rewrite Hsel.
  - now apply handler_adopted.
  - rewrite (handler_adopted rd product upstream currentDate stamp r' sandbox Hrd Had).
    apply classify_environment.
Qed.

Lemma C2_reroute_adopts_sandbox_witness :
  falsy (Some "receipt") = false /\
  calls_of (post "receipt" None)
           (stub (inr (status_only 21007)) (inr (accepted None None))) 0 0
    = [(PRODUCTION_URL, "receipt"); (SANDBOX_URL, "receipt")] /\
  verdict_environment
    (response_of (post "receipt" None)
                 (stub (inr (status_only 21007)) (inr (accepted None None))) 0 0)
    = Some sandbox.
Proof.
  split; [reflexivity|].
  destruct (C2_reroute_adopts_sandbox "receipt" None
              (stub (inr (status_only 21007)) (inr (accepted None None))) 0 0
              (status_only 21007) (accepted None None)
              eq_refl eq_refl eq_refl eq_refl) as (Hc & _ & _ & He).
  split; [exact Hc | exact He].
Defined.

(** C6.  Whatever else the adopted answer holds and whichever environment
    it came from, status 21006 gives
    [{isValid: false, error: 'Subscription has expired', status: 21006,
    expired: true}] with HTTP status 200; every other non-zero status gives
    the generic shape, which has a different error text and no [expired]
    key. *)
Theorem C6_expired_status :
  forall (rd : string) (product : option string) (upstream : Upstream)
         (currentDate stamp : Z) (r : AppleResponse) (env : Environment),
    falsy (Some rd) = false ->
    adopted upstream rd = Some (r, env) ->
    status r = Some 21006 ->
    response_of (post rd product) upstream currentDate stamp =
      mkResponse 200 (headers cors_res)
        (Some (Verdict.mk (Some false) (Some "Subscription has expired")
                 (Some 21006) (Some true) None None None None)) /\
    (forall (r' : AppleResponse) (env' : Environment),
        status r' <> Some 0 -> status r' <> Some 21006 ->
        json (classify r' env' currentDate stamp cors_res) =
          Some (Verdict.mk (Some false)
                  (Some ("Receipt validation failed: " ++ statusMeaning (status r')))
                  (status r') None None None None None)).
Proof.
  intros rd product upstream currentDate stamp r env Hrd Had Hst. split.
  - rewrite (handler_adopted rd product upstream currentDate stamp r env Hrd Had).
    unfold classify, status_failure. rewrite Hst. reflexivity.
  - intros r' env' H0 H6.
    unfold classify, status_failure.
    rewrite (proj2 (status_is_false _ _) H0), (proj2 (status_is_false _ _) H6).
    reflexivity.
Qed.

Lemma C6_expired_status_witness :
  falsy (Some "receipt") = false /\
  adopted (stub (inr (mkAppleResponse (Some 21006) None
                        (Some [transaction "99999999999999" "t1"]) None))
                (inl network_error)) "receipt"
    = Some (mkAppleResponse (Some 21006) None
              (Some [transaction "99999999999999" "t1"]) None, production) /\
  response_of (post "receipt" None)
    (stub (inr (mkAppleResponse (Some 21006) None
                  (Some [transaction "99999999999999" "t1"]) None))
          (inl network_error)) 0 0 =
    mkResponse 200 (headers cors_res)
      (Some (Verdict.mk (Some false) (Some "Subscription has expired")
               (Some 21006) (Some true) None None None None)).
Proof.
  split; [reflexivity|]. split; [reflexivity|].
  exact (proj1 (C6_expired_status "receipt" None
                  (stub (inr (mkAppleResponse (Some 21006) None
                                (Some [transaction "99999999999999" "t1"]) None))
                        (inl network_error)) 0 0
                  (mkAppleResponse (Some 21006) None
                     (Some [transaction "99999999999999" "t1"]) None)
                  production eq_refl eq_refl eq_refl)).
Defined.

(** ** The detection methods *)

(** Method 1 either leaves the state alone or records an active
    subscription; which of the two does not depend on the environment. *)
Lemma method1_flag_env (r : AppleResponse) (e1 e2 : Environment)
    (currentDate : Z) (st : DetectState) :
  method1 r e1 currentDate st = st ->
  isValidSubscription st = false ->
  method1 r e2 currentDate st = st.
Proof.
  unfold method1, check_expiry.
  destruct (latestTransaction r) as [t|]; [|reflexivity].
  destruct (js_gt _ _); [|reflexivity].
  intros H Hf. rewrite <- H in Hf. discriminate.
Qed.

Lemma method2_flag_env (r : AppleResponse) (e1 e2 : Environment) (st : DetectState) :
  method2 r e1 st = st ->
  isValidSubscription st = false ->
  method2 r e2 st = st.
Proof.
  unfold method2. intros H Hf. rewrite Hf in *. cbn [negb] in *.
  destruct (receipt r) as [rc|]; [|reflexivity].
  destruct (in_app rc) as [ps|]; [|reflexivity].
  cbv zeta in *.
  destruct (0 <? Z.of_nat (List.length (filter is_monthly ps))); [|reflexivity].
  destruct (array_sort by_purchase_desc (filter is_monthly ps)); [reflexivity|].
  rewrite <- H in Hf. discriminate.
Qed.

Lemma method3_production (r : AppleResponse) (st : DetectState) :
  method3 r production st = st.
Proof.
  unfold method3.
  destruct (negb (isValidSubscription st)); [|reflexivity].
  destruct (pending_renewal_info r); reflexivity.
Qed.

Lemma method4_production (r : AppleResponse) (st : DetectState) :
  method4 r production st = st.
Proof.
  unfold method4. cbn [Environment_eqb].
  now rewrite andb_false_r.
Qed.

(** C4.  An adopted answer with status 0 and the right bundle id on which
    methods 1, 2 and 3 leave the state untouched: adopted from the sandbox
    it yields [isValid: true] with the fallback [subscriptionInfo] (and the
    cache header); the same answer adopted from production yields
    [isValid: false] with [subscriptionInfo: null]. *)
Theorem C4_sandbox_fallback :
  forall (r : AppleResponse) (currentDate stamp : Z),
    status r = Some 0 ->
    receipt_bundle_id r = Some BUNDLE_ID ->
    method1 r sandbox currentDate initial_state = initial_state ->
    method2 r sandbox initial_state = initial_state ->
    method3 r sandbox initial_state = initial_state ->
    (forall (rd : string) (product : option string) (upstream : Upstream),
        falsy (Some rd) = false ->
        adopted upstream rd = Some (r, sandbox) ->
        response_of (post rd product) upstream currentDate stamp =
          mkResponse 200
            (headers cors_res ++ [("Cache-Control", "private, max-age=300")])
            (Some (Verdict.mk (Some true) None None None (Some sandbox)
                     (Some (Some (SandboxFallback MONTHLY sandbox true)))
                     (Some stamp) (Some (debug_info r))))) /\
    (forall (rd : string) (product : option string) (upstream : Upstream),
        falsy (Some rd) = false ->
        adopted upstream rd = Some (r, production) ->
        response_of (post rd product) upstream currentDate stamp =
          mkResponse 200 (headers cors_res)
            (Some (Verdict.mk (Some false) None None None (Some production)
                     (Some None) (Some stamp) None))).
Proof.
  intros r currentDate stamp Hst Hb H1 H2 H3.
  assert (Hs : detect r sandbox currentDate =
               mkState true (Some (SandboxFallback MONTHLY sandbox true))).
  { unfold detect. rewrite H1, H2, H3. unfold method4. rewrite Hb. reflexivity. }
  assert (Hp : detect r production currentDate = initial_state).
  { unfold detect.
    rewrite (method1_flag_env r sandbox production currentDate initial_state H1 eq_refl).
    rewrite (method2_flag_env r sandbox production initial_state H2 eq_refl).
    now rewrite method3_production, method4_production. }
  split; intros rd product upstream Hrd Had;
    rewrite (handler_adopted rd product upstream currentDate stamp r _ Hrd Had);
    unfold classify; rewrite Hst, Hb; cbn [status_is Z.eqb negb];
    change (strict_eq (Some BUNDLE_ID) BUNDLE_ID) with true; cbn [negb].
  - rewrite Hs. reflexivity.
  - rewrite Hp. reflexivity.
Qed.

Lemma C4_sandbox_fallback_witness :
  status (accepted None None) = Some 0 /\
  receipt_bundle_id (accepted None None) = Some BUNDLE_ID /\
  response_of (post "receipt" None)
    (stub (inl network_error) (inr (accepted None None))) 5 7 =
    mkResponse 200
      (headers cors_res ++ [("Cache-Control", "private, max-age=300")])
      (Some (Verdict.mk (Some true) None None None (Some sandbox)
               (Some (Some (SandboxFallback MONTHLY sandbox true)))
               (Some 7) (Some (debug_info (accepted None None))))) /\
  response_of (post "receipt" None)
    (stub (inr (accepted None None)) (inl network_error)) 5 7 =
    mkResponse 200 (headers cors_res)
      (Some (Verdict.mk (Some false) None None None (Some production)
               (Some None) (Some 7) None)).
Proof.
  split; [reflexivity|]. split; [reflexivity|].
  destruct (C4_sandbox_fallback (accepted None None) 5 7
              eq_refl eq_refl eq_refl eq_refl eq_refl) as [Hs Hp].
  split.
  - exact (Hs "receipt" None (stub (inl network_error) (inr (accepted None None)))
              eq_refl eq_refl).
  - exact (Hp "receipt" None (stub (inr (accepted None None)) (inl network_error))
              eq_refl eq_refl).
Defined.

(** Each method keeps the invariant, and a method that raises the flag
    assigns the information in the same step. *)
Lemma method1_assigns (r : AppleResponse) (env : Environment) (currentDate : Z)
    (st : DetectState) :
  method1 r env currentDate st = st \/
  exists i, method1 r env currentDate st = mkState true (Some i).
Proof.
  unfold method1, check_expiry.
  destruct (latestTransaction r) as [t|]; [|now left].
  destruct (js_gt _ _); [right; eauto|now left].
Qed.

Lemma method2_assigns (r : AppleResponse) (env : Environment) (st : DetectState) :
  method2 r env st = st \/
  exists i, method2 r env st = mkState true (Some i).
Proof.
  unfold method2.
  destruct (negb (isValidSubscription st)); [|now left].
  destruct (receipt r) as [rc|]; [|now left].
  destruct (in_app rc) as [ps|]; [|now left].
  cbv zeta.
  destruct (0 <? Z.of_nat (List.length (filter is_monthly ps))); [|now left].
  destruct (array_sort by_purchase_desc (filter is_monthly ps)); [now left|].
  right; eauto.
Qed.

Lemma method3_assigns (r : AppleResponse) (env : Environment) (st : DetectState) :
  method3 r env st = st \/
  exists i, method3 r env st = mkState true (Some i).
Proof.
  unfold method3.
  destruct (negb (isValidSubscription st)); [|now left].
  destruct (pending_renewal_info r) as [rs|]; [|now left].
  destruct (Environment_eqb env sandbox); [|now left].
  destruct (array_find is_monthly rs) as [p|]; [|now left].
  destruct (strict_eq (auto_renew_status p) "1"); [right; eauto|now left].
Qed.

Lemma method4_assigns (r : AppleResponse) (env : Environment) (st : DetectState) :
  method4 r env st = st \/
  exists i, method4 r env st = mkState true (Some i).
Proof.
  unfold method4.
  destruct (negb (isValidSubscription st) && Environment_eqb env sandbox
            && strict_eq (receipt_bundle_id r) BUNDLE_ID);
    [right; eauto|now left].
Qed.

Lemma assigns_keeps_ok (st st' : DetectState) :
  st' = st \/ (exists i, st' = mkState true (Some i)) ->
  state_ok st -> state_ok st'.
Proof.
  intros [->|[i ->]] H; [exact H|].
  unfold state_ok. simpl. discriminate.
Qed.

Lemma detect_ok (r : AppleResponse) (env : Environment) (currentDate : Z) :
  state_ok (detect r env currentDate).
Proof.
  unfold detect.
  apply (assigns_keeps_ok _ _ (method4_assigns _ _ _)).
  apply (assigns_keeps_ok _ _ (method3_assigns _ _ _)).
  apply (assigns_keeps_ok _ _ (method2_assigns _ _ _)).
  apply (assigns_keeps_ok _ _ (method1_assigns _ _ _ _)).
  unfold state_ok, initial_state. simpl. discriminate.
Qed.

Lemma handler_catch_invalid (e : JSError) (res : Response) :
  json (handler_catch e res) <> None /\
  verdict_isValid (handler_catch e res) = Some false /\
  statusCode (handler_catch e res) <> 200.
Proof.
  unfold handler_catch.
  destruct (String.eqb (name e) "AbortError"); [repeat split; discriminate|].
  destruct (match message e with Some m => includes m "fetch" | None => false end);
    repeat split; discriminate.
Qed.

(** The answers of the handler: a refusal, or the classification of an
    adopted upstream answer. *)
Lemma response_of_cases (req : Request) (upstream : Upstream) (currentDate stamp : Z) :
  (verdict_isValid (response_of req upstream currentDate stamp) <> Some true /\
   forall now' stamp', response_of req upstream now' stamp'
                       = response_of req upstream currentDate stamp) \/
  exists rd r env,
    adopted upstream rd = Some (r, env) /\
    forall now' stamp',
      response_of req upstream now' stamp' = classify r env now' stamp' cors_res.
Proof.
  unfold response_of, handler.
  destruct (String.eqb (method req) "OPTIONS"); [left; split; [discriminate|reflexivity]|].
  destruct (negb (String.eqb (method req) "POST")); [left; split; [discriminate|reflexivity]|].
  unfold handler_try.
  destruct (body req) as [b|]; [|left; split; [discriminate|reflexivity]].
  destruct (falsy (receiptData b)); [left; split; [discriminate|reflexivity]|].
  destruct (negb (strict_eq (bundleId b) BUNDLE_ID));
    [left; split; [discriminate|reflexivity]|].
  unfold bind, adopted.
  set (rd := match receiptData b with Some s => s | None => "" end).
  destruct (select_environment_catches upstream rd cors_res) as (x & log & E).
  rewrite E. destruct x as [early|[r env]].
  - left. pose proof (select_environment_run upstream rd cors_res) as R.
    rewrite E in R.
    assert (early = gave_up cors_res) as ->.
    { repeat match type of R with
             | context [match ?x with _ => _ end] => destruct x
             end; congruence. }
    split; [discriminate|reflexivity].
  - right. exists rd, r, env. split; [now rewrite E|reflexivity].
Qed.

Lemma classify_valid_has_info (r : AppleResponse) (env : Environment)
    (currentDate stamp : Z) (res : Response) :
  verdict_isValid (classify r env currentDate stamp res) = Some true ->
  exists i, verdict_subscriptionInfo (classify r env currentDate stamp res)
            = Some (Some i).
Proof.
  unfold classify, status_failure, final_verdict.
  destruct (negb (status_is (status r) 0)).
  { destruct (status_is (status r) 21006); discriminate. }
  destruct (negb (strict_eq (receipt_bundle_id r) BUNDLE_ID)); [discriminate|].
  pose proof (detect_ok r env currentDate) as Hok.
  unfold verdict_isValid, verdict_subscriptionInfo. simpl.
  intros H. injection H as H. specialize (Hok H).
  destruct (subscriptionInfo (detect r env currentDate)) as [i|]; [eauto|congruence].
Qed.

(** C7.  Every answer of the handler whose body says [isValid: true] has a
    [subscriptionInfo] that is an object, not [null]; and each of the four
    detection methods, whenever it turns the flag from false to true,
    assigns [subscriptionInfo] in that same step. *)
Theorem C7_valid_carries_subscription_info :
  forall (req : Request) (upstream : Upstream) (currentDate stamp : Z),
    (verdict_isValid (response_of req upstream currentDate stamp) = Some true ->
     exists i, verdict_subscriptionInfo (response_of req upstream currentDate stamp)
               = Some (Some i)) /\
    (forall (r : AppleResponse) (env : Environment) (st : DetectState),
        isValidSubscription st = false ->
        (isValidSubscription (method1 r env currentDate st) = true ->
         subscriptionInfo (method1 r env currentDate st) <> None) /\
        (isValidSubscription (method2 r env st) = true ->
         subscriptionInfo (method2 r env st) <> None) /\
        (isValidSubscription (method3 r env st) = true ->
         subscriptionInfo (method3 r env st) <> None) /\
        (isValidSubscription (method4 r env st) = true ->
         subscriptionInfo (method4 r env st) <> None)).
Proof.
  intros req upstream currentDate stamp. split.
  - destruct (response_of_cases req upstream currentDate stamp)
      as [[H _]|(rd & r & env & _ & H)].
    + intros Hv. contradiction.
    + rewrite H. apply classify_valid_has_info.
  - intros r env st Hf.
    pose proof (method1_assigns r env currentDate st) as [E1|[i1 E1]];
    pose proof (method2_assigns r env st) as [E2|[i2 E2]];
    pose proof (method3_assigns r env st) as [E3|[i3 E3]];
    pose proof (method4_assigns r env st) as [E4|[i4 E4]];
    rewrite E1, E2, E3, E4; repeat split; simpl; congruence.
Qed.

Lemma C7_valid_carries_subscription_info_witness :
  verdict_isValid
    (response_of (post "receipt" None)
       (stub (inr (accepted None (Some [purchase "1700000000000" "p1"])))
             (inl network_error)) 5 7) = Some true /\
  exists i,
    verdict_subscriptionInfo
      (response_of (post "receipt" None)
         (stub (inr (accepted None (Some [purchase "1700000000000" "p1"])))
               (inl network_error)) 5 7) = Some (Some i).
Proof.
  split; [reflexivity|].
  exact (proj1 (C7_valid_carries_subscription_info (post "receipt" None)
                  (stub (inr (accepted None (Some [purchase "1700000000000" "p1"])))
                        (inl network_error)) 5 7) eq_refl).
Defined.

(** ** Tolerance of absent fields *)




Lemma check_expiry_absent (t : Item) (env : Environment) (currentDate : Z)
    (st : DetectState) :
  parseInt (expires_date_ms t) = NaN -> check_expiry t env currentDate st = st.
Proof.
  intros H. unfold check_expiry. now rewrite H.
Qed.

Lemma assigns_keeps_null (st st' : DetectState) :
  st' = st \/ (exists i, st' = mkState true (Some i)) ->
  (isValidSubscription st = false -> subscriptionInfo st = None) ->
  isValidSubscription st' = false -> subscriptionInfo st' = None.
Proof.
  intros [->|[i ->]] H; [exact H|discriminate].
Qed.

Lemma detect_invalid_null (r : AppleResponse) (env : Environment) (currentDate : Z) :
  isValidSubscription (detect r env currentDate) = false ->
  subscriptionInfo (detect r env currentDate) = None.
Proof.
  unfold detect.
  apply (assigns_keeps_null _ _ (method4_assigns _ _ _)).
  apply (assigns_keeps_null _ _ (method3_assigns _ _ _)).
  apply (assigns_keeps_null _ _ (method2_assigns _ _ _)).
  apply (assigns_keeps_null _ _ (method1_assigns _ _ _ _)).
  reflexivity.
Qed.




(** ** Dependence on the clock *)





(** ** Method 1 *)

(** C10.  When the transaction method 1 selects has an [expires_date_ms]
    that [parseInt] turns into [NaN], method 1 leaves the flag false and the
    information null, so the remaining methods run from the initial state,
    the in-app scan first; with status 0 and the right bundle id the answer
    is the final verdict with HTTP status 200, not an error answer. *)
Theorem C10_unparsable_expiry_is_not_active :
  forall (r : AppleResponse) (env : Environment) (currentDate : Z) (t : Item),
    latestTransaction r = Some t ->
    parseInt (expires_date_ms t) = NaN ->
    method1 r env currentDate initial_state = initial_state /\
    detect r env currentDate =
      method4 r env (method3 r env (method2 r env initial_state)) /\
    (forall (rd : string) (product : option string) (upstream : Upstream) (stamp : Z),
        falsy (Some rd) = false ->
        adopted upstream rd = Some (r, env) ->
        status r = Some 0 ->
        receipt_bundle_id r = Some BUNDLE_ID ->
        response_of (post rd product) upstream currentDate stamp =
          final_verdict r env
            (method4 r env (method3 r env (method2 r env initial_state)))
            stamp cors_res /\
        statusCode (response_of (post rd product) upstream currentDate stamp) = 200).
Proof.
  intros r env currentDate t Ht Hnan.
  assert (H1 : method1 r env currentDate initial_state = initial_state).
  { unfold method1. rewrite Ht. now apply check_expiry_absent. }
  assert (Hd : detect r env currentDate =
               method4 r env (method3 r env (method2 r env initial_state))).
  { unfold detect. now rewrite H1. }
  split; [exact H1|]. split; [exact Hd|].
  intros rd product upstream stamp Hrd Had Hst Hb.
  rewrite (handler_adopted rd product upstream currentDate stamp r env Hrd Had).
  unfold classify. rewrite Hst, Hb, Hd.
  cbn [status_is Z.eqb negb].
  change (strict_eq (Some BUNDLE_ID) BUNDLE_ID) with true. cbn [negb].
  split; [reflexivity|].
  unfold final_verdict.
  destruct (isValidSubscription _); reflexivity.
Qed.

Lemma C10_unparsable_expiry_is_not_active_witness :
  latestTransaction
    (accepted (Some [transaction "soon" "t1"]) (Some [purchase "1700000000000" "p1"]))
    = Some (transaction "soon" "t1") /\
  parseInt (expires_date_ms (transaction "soon" "t1")) = NaN /\
  method1
    (accepted (Some [transaction "soon" "t1"]) (Some [purchase "1700000000000" "p1"]))
    production 5 initial_state = initial_state /\
  detect
    (accepted (Some [transaction "soon" "t1"]) (Some [purchase "1700000000000" "p1"]))
    production 5
  = mkState true
      (Some (PastPurchase (Some MONTHLY) (Some "p1") production (Some 1700000000000))).
Proof.
  split; [reflexivity|]. split; [reflexivity|].
  destruct (C10_unparsable_expiry_is_not_active
              (accepted (Some [transaction "soon" "t1"])
                        (Some [purchase "1700000000000" "p1"]))
              production 5 (transaction "soon" "t1") eq_refl eq_refl)
    as (H1 & Hd & _).
  split; [exact H1|]. rewrite Hd. reflexivity.
Defined.

Lemma gracePeriod_value : gracePeriod = 300000.
Proof. reflexivity. Qed.

(** Methods 2 to 4 do not touch a state that is already valid. *)
Lemma later_methods_keep_valid (r : AppleResponse) (env : Environment)
    (st : DetectState) :
  isValidSubscription st = true ->
  method4 r env (method3 r env (method2 r env st)) = st.
Proof.
  intros H.
  assert (E2 : method2 r env st = st) by (unfold method2; now rewrite H).
  rewrite E2.
  assert (E3 : method3 r env st = st) by (unfold method3; now rewrite H).
  rewrite E3.
  unfold method4. now rewrite H.
Qed.

Lemma filter_nonempty_length {A : Type} (p : A -> bool) (l : list A) (x : A) :
  In x l -> p x = true -> (0 <? Z.of_nat (List.length (filter p l))) = true.
Proof.
  intros Hin Hp.
  assert (Hf : In x (filter p l)) by (apply filter_In; now split).
  destruct (filter p l); [contradiction|].
  simpl List.length. apply Z.ltb_lt. lia.
Qed.

Lemma isSafeInteger_Num (n : JSNumber) :
  isSafeInteger n = true ->
  exists e, n = Num e /\ Z.abs e <= 9007199254740991.
Proof.
  destruct n as [|e]; [discriminate|].
  intros H. exists e. split; [reflexivity|]. now apply Z.leb_le.
Qed.

(** When every transaction for the product has an expiry that parses, the
    transaction method 1 looks at has the greatest parsed expiry. *)
Lemma latestTransaction_max (r : AppleResponse) (infos : list Item) :
  latest_receipt_info r = Some infos ->
  (exists x, In x infos /\ is_monthly x = true) ->
  (forall x, In x infos -> is_monthly x = true ->
             parseInt (expires_date_ms x) <> NaN) ->
  exists (t : Item) (T : Z),
    latestTransaction r = Some t /\
    In t infos /\
    is_monthly t = true /\
    parseInt (expires_date_ms t) = Num T /\
    (forall x e, In x infos -> is_monthly x = true ->
                 parseInt (expires_date_ms x) = Num e -> e <= T).
Proof.
  intros Hinfo (x0 & Hx0 & Hm0) Hparse.
  set (key := fun x : Item =>
                match parseInt (expires_date_ms x) with Num e => e | NaN => 0 end).
  assert (Hcmp : forall a b,
             In a (filter is_monthly infos) -> In b (filter is_monthly infos) ->
             by_expires_desc a b = Num (key b - key a)).
  { intros a b Ha Hb. apply filter_In in Ha, Hb.
    destruct Ha as [Ha Hma], Hb as [Hb Hmb].
    pose proof (Hparse a Ha Hma) as Pa. pose proof (Hparse b Hb Hmb) as Pb.
    unfold by_expires_desc, key.
    destruct (parseInt (expires_date_ms a)); [congruence|].
    destruct (parseInt (expires_date_ms b)); [congruence|].
    reflexivity. }
  assert (Hne : filter is_monthly infos <> []).
  { intros E. assert (Hf : In x0 (filter is_monthly infos))
      by (apply filter_In; now split).
    rewrite E in Hf. contradiction. }
  destruct (array_sort_hd_max by_expires_desc key (filter is_monthly infos) Hcmp Hne)
    as (t & Hhd & Htin & Hmax).
  apply filter_In in Htin. destruct Htin as [Htin Htm].
  pose proof (Hparse t Htin Htm) as Pt.
  destruct (parseInt (expires_date_ms t)) as [|T] eqn:ET; [congruence|].
  exists t, T.
  split.
  { unfold latestTransaction. rewrite Hinfo.
    assert (L1 : (0 <? Z.of_nat (List.length infos)) = true).
    { destruct infos; [contradiction|]. simpl List.length. apply Z.ltb_lt. lia. }
    rewrite L1. cbv zeta.
    now rewrite (filter_nonempty_length is_monthly infos x0 Hx0 Hm0). }
  split; [exact Htin|]. split; [exact Htm|]. split; [exact ET|].
  intros x e Hx Hmx Ex.
  assert (Hxf : In x (filter is_monthly infos)) by (apply filter_In; now split).
  specialize (Hmax x Hxf). unfold key in Hmax. now rewrite Ex, ET in Hmax.
Qed.

(** Of two transactions for the product with expiries T1 < T2 (safe
    integers), the one with T2 is selected, whichever comes first in the
    array. *)
Lemma two_transactions_later_expiry_selected (a b : Item) (T1 T2 : Z)
    (st : option Z) (rc : option Receipt) (pend : option (list Item)) :
  is_monthly a = true -> is_monthly b = true ->
  parseInt (expires_date_ms a) = Num T1 ->
  parseInt (expires_date_ms b) = Num T2 ->
  isSafeInteger (Num T1) = true -> isSafeInteger (Num T2) = true ->
  T1 < T2 ->
  latestTransaction (mkAppleResponse st rc (Some [a; b]) pend) = Some b /\
  latestTransaction (mkAppleResponse st rc (Some [b; a]) pend) = Some b.
Proof.
  intros Ha Hb Pa Pb _ _ Hlt.
  unfold latestTransaction. cbn [latest_receipt_info List.length filter].
  rewrite Ha, Hb. cbn [List.length]. simpl Z.ltb.
  cbn [array_sort fold_right sort_insert].
  unfold SortCompare, by_expires_desc. rewrite Pa, Pb. cbn [js_sub].
  destruct (T2 - T1 <=? 0) eqn:E1; [apply Z.leb_le in E1; lia|].
  destruct (T1 - T2 <=? 0) eqn:E2; [|apply Z.leb_gt in E2; lia].
  split; reflexivity.
Qed.

(** The comparison is numeric: "10" is later than "9". *)
Example numeric_not_lexicographic :
  latestTransaction (accepted (Some [transaction "9" "t1"; transaction "10" "t2"]) None)
  = Some (transaction "10" "t2").
Proof. reflexivity. Qed.

(** * Further properties of the handler *)

(** ** The request gate (lines 3-35) *)

(** Every run of the handler, by the shape of the request. *)
Lemma handler_run (req : Request) (upstream : Upstream) (currentDate stamp : Z) :
  handler req upstream currentDate stamp =
  if String.eqb (method req) "OPTIONS" then (res_status 200 cors_res, [])
  else if negb (String.eqb (method req) "POST") then
    (res_json method_not_allowed (res_status 405 cors_res), [])
  else
    match body req with
    | None => (handler_catch destructure_error cors_res, [])
    | Some b =>
        if falsy (receiptData b) then
          (res_json (Verdict.failure "Receipt data is required")
                    (res_status 400 cors_res), [])
        else if negb (strict_eq (bundleId b) BUNDLE_ID) then
          (res_json (Verdict.failure "Invalid bundle ID")
                    (res_status 400 cors_res), [])
        else
          match select_environment upstream
                  (match receiptData b with Some s => s | None => "" end)
                  cors_res [] with
          | (inr (inr (r, env)), log) =>
              (classify r env currentDate stamp cors_res, log)
          | (_, log) => (gave_up cors_res, log)
          end
    end.
Proof.
  unfold handler, handler_try.
  destruct (String.eqb (method req) "OPTIONS"); [reflexivity|].
  destruct (negb (String.eqb (method req) "POST")); [reflexivity|].
  destruct (body req) as [b|]; [|reflexivity].
  destruct (falsy (receiptData b)); [reflexivity|].
  destruct (negb (strict_eq (bundleId b) BUNDLE_ID)); [reflexivity|].
  unfold bind.
  set (rd := match receiptData b with Some s => s | None => "" end).
  pose proof (select_environment_run upstream rd cors_res) as R.
  destruct (select_environment upstream rd cors_res []) as [[e|[early|[r env]]] log].
  - exfalso.
    repeat match type of R with
           | context [match ?x with _ => _ end] => destruct x
           end; discriminate.
  - assert (early = gave_up cors_res) as ->.
    { repeat match type of R with
             | context [match ?x with _ => _ end] => destruct x
             end; congruence. }
    reflexivity.
  - reflexivity.
Qed.

Lemma classify_statusCode (r : AppleResponse) (env : Environment)
    (currentDate stamp : Z) (res : Response) :
  statusCode (classify r env currentDate stamp res) = statusCode res.
Proof.
  unfold classify, status_failure, final_verdict.
  destruct (negb (status_is (status r) 0)).
  { destruct (status_is (status r) 21006); reflexivity. }
  destruct (negb (strict_eq (receipt_bundle_id r) BUNDLE_ID)); [reflexivity|].
  destruct (isValidSubscription _); reflexivity.
Qed.

(** The headers after classification: the cache header is appended exactly
    when the verdict is valid. *)
Lemma classify_headers (r : AppleResponse) (env : Environment)
    (currentDate stamp : Z) (res : Response) :
  headers (classify r env currentDate stamp res) =
  (headers res ++
   if match verdict_isValid (classify r env currentDate stamp res) with
      | Some true => true
      | _ => false
      end
   then [cache_header] else [])%list.
Proof.
  unfold classify, status_failure, final_verdict, verdict_isValid.
  destruct (negb (status_is (status r) 0)).
  { destruct (status_is (status r) 21006); simpl; now rewrite app_nil_r. }
  destruct (negb (strict_eq (receipt_bundle_id r) BUNDLE_ID));
    [simpl; now rewrite app_nil_r|].
  destruct (isValidSubscription _); simpl; [reflexivity|now rewrite app_nil_r].
Qed.

(** X1.  A request whose method is not POST never reaches the upstream and
    never gets a verdict: OPTIONS is answered 200 with no body, any other
    method 405 with [{error: 'Method not allowed'}], which has no [isValid]
    key. *)
Theorem X1_only_post_is_validated :
  forall (req : Request) (upstream : Upstream) (currentDate stamp : Z),
    method req <> "POST" ->
    calls_of req upstream currentDate stamp = [] /\
    verdict_isValid (response_of req upstream currentDate stamp) = None /\
    (method req = "OPTIONS" ->
     response_of req upstream currentDate stamp
     = mkResponse 200 (headers cors_res) None) /\
    (method req <> "OPTIONS" ->
     response_of req upstream currentDate stamp
     = mkResponse 405 (headers cors_res) (Some method_not_allowed)).
Proof.
  intros req upstream currentDate stamp Hm.
  unfold calls_of, response_of. rewrite handler_run.
  destruct (String.eqb (method req) "OPTIONS") eqn:E1.
  - repeat split. intros H. apply String.eqb_eq in E1. contradiction.
  - apply String.eqb_neq in Hm. rewrite Hm. cbn [negb].
    repeat split. intros H. rewrite H in E1. discriminate.
Qed.

Lemma X1_only_post_is_validated_witness :
  method (mkRequest "GET" None) <> "POST" /\
  calls_of (mkRequest "GET" None) (stub (inr (accepted None None)) (inl network_error)) 0 0
  = [] /\
  statusCode (response_of (mkRequest "GET" None)
                (stub (inr (accepted None None)) (inl network_error)) 0 0) = 405.
Proof.
  assert (H : method (mkRequest "GET" None) <> "POST") by discriminate.
  split; [exact H|].
  destruct (X1_only_post_is_validated (mkRequest "GET" None)
              (stub (inr (accepted None None)) (inl network_error)) 0 0 H)
    as (Hc & _ & _ & H405).
  split; [exact Hc|]. rewrite H405; [reflexivity|discriminate].
Defined.

(** X2.  Every answer, whatever the request and the upstream, starts with
    the three CORS headers of lines 4-6 in the order they are set, followed
    by nothing or by the cache header alone. *)
Theorem X2_cors_headers_on_every_answer :
  forall (req : Request) (upstream : Upstream) (currentDate stamp : Z),
    exists tail,
      headers (response_of req upstream currentDate stamp) =
      ([("Access-Control-Allow-Origin", "*");
        ("Access-Control-Allow-Methods", "GET, POST, OPTIONS");
        ("Access-Control-Allow-Headers", "Content-Type")] ++ tail)%list /\
      (tail = [] \/ tail = [cache_header]).
Proof.
  intros req upstream currentDate stamp.
  unfold response_of. rewrite handler_run.
  destruct (String.eqb (method req) "OPTIONS"); [exists []; split; auto|].
  destruct (negb (String.eqb (method req) "POST")); [exists []; split; auto|].
  destruct (body req) as [b|]; [|exists []; split; auto].
  destruct (falsy (receiptData b)); [exists []; split; auto|].
  destruct (negb (strict_eq (bundleId b) BUNDLE_ID)); [exists []; split; auto|].
  destruct (select_environment upstream _ cors_res []) as [[e|[early|[r env]]] log];
    try (exists []; split; auto; fail).
  cbn [fst]. rewrite classify_headers.
  destruct (match verdict_isValid _ with Some true => true | _ => false end);
    [exists [cache_header]|exists []]; split; auto.
Qed.

(** X3.  Input validation of a POST with a body: a missing or empty
    [receiptData] is answered 400 "Receipt data is required", and this is
    checked before the bundle id; with a receipt, a [bundleId] other than
    the app's is answered 400 "Invalid bundle ID".  Neither makes an
    upstream call. *)
Theorem X3_input_validation :
  forall (req : Request) (b : RequestBody) (upstream : Upstream)
         (currentDate stamp : Z),
    method req = "POST" ->
    body req = Some b ->
    (falsy (receiptData b) = true ->
     handler req upstream currentDate stamp =
       (mkResponse 400 (headers cors_res)
          (Some (Verdict.failure "Receipt data is required")), [])) /\
    (falsy (receiptData b) = false ->
     bundleId b <> Some BUNDLE_ID ->
     handler req upstream currentDate stamp =
       (mkResponse 400 (headers cors_res)
          (Some (Verdict.failure "Invalid bundle ID")), [])).
Proof.
  intros req b upstream currentDate stamp Hm Hb.
  rewrite handler_run, Hm, Hb.
  change (String.eqb "POST" "OPTIONS") with false.
  change (String.eqb "POST" "POST") with true. cbn [negb].
  split.
  - intros ->. reflexivity.
  - intros -> Hne.
    destruct (strict_eq (bundleId b) BUNDLE_ID) eqn:E; [|reflexivity].
    apply strict_eq_true in E. contradiction.
Qed.

Lemma X3_input_validation_witness :
  method (mkRequest "POST" (Some (mkRequestBody (Some "") (Some "com.other.app") None)))
  = "POST" /\
  handler (mkRequest "POST" (Some (mkRequestBody (Some "") (Some "com.other.app") None)))
          (stub (inr (accepted None None)) (inl network_error)) 0 0
  = (mkResponse 400 (headers cors_res)
       (Some (Verdict.failure "Receipt data is required")), []).
Proof.
  split; [reflexivity|].
  exact (proj1 (X3_input_validation
                  (mkRequest "POST"
                     (Some (mkRequestBody (Some "") (Some "com.other.app") None)))
                  (mkRequestBody (Some "") (Some "com.other.app") None)
                  (stub (inr (accepted None None)) (inl network_error)) 0 0
                  eq_refl eq_refl) eq_refl).
Defined.

(** X4.  The HTTP status of an answer is always 200, 400, 405 or 500: the
    408 and 502 of the outer [catch] are never sent, whatever the upstream
    calls throw. *)
Theorem X4_http_status_codes :
  forall (req : Request) (upstream : Upstream) (currentDate stamp : Z),
    In (statusCode (response_of req upstream currentDate stamp)) [200; 400; 405; 500].
Proof.
  intros req upstream currentDate stamp.
  unfold response_of. rewrite handler_run.
  destruct (String.eqb (method req) "OPTIONS"); [simpl; tauto|].
  destruct (negb (String.eqb (method req) "POST")); [simpl; tauto|].
  destruct (body req) as [b|]; [|simpl; tauto].
  destruct (falsy (receiptData b)); [simpl; tauto|].
  destruct (negb (strict_eq (bundleId b) BUNDLE_ID)); [simpl; tauto|].
  destruct (select_environment upstream _ cors_res []) as [[e|[early|[r env]]] log];
    try (simpl; tauto).
  cbn [fst]. rewrite classify_statusCode. simpl; tauto.
Qed.

(** ** Choice of the environment (lines 78-108) *)

Ltac split_upstream R :=
  repeat match type of R with
         | context [match ?x with _ => _ end] =>
             let E := fresh "E" in destruct x eqn:E
         | context [if ?x then _ else _] =>
             let E := fresh "E" in destruct x eqn:E
         end.

(** X5.  The call log of a validated POST: one production call first, then
    at most two sandbox calls, every call posting the receipt of the
    request. *)
Theorem X5_call_log_shape :
  forall (rd : string) (product : option string) (upstream : Upstream)
         (currentDate stamp : Z),
    falsy (Some rd) = false ->
    exists n : nat,
      (n <= 2)%nat /\
      calls_of (post rd product) upstream currentDate stamp =
      (PRODUCTION_URL, rd) :: repeat (SANDBOX_URL, rd) n.
Proof.
  intros rd product upstream currentDate stamp Hrd.
  rewrite calls_post by assumption.
  pose proof (select_environment_run upstream rd cors_res) as R.
  split_upstream R; rewrite R; cbn [snd];
    first [ exists 0%nat; split; [lia|reflexivity]
          | exists 1%nat; split; [lia|reflexivity]
          | exists 2%nat; split; [lia|reflexivity] ].
Qed.

Lemma X5_call_log_shape_witness :
  falsy (Some "receipt") = false /\
  exists n : nat,
    (n <= 2)%nat /\
    calls_of (post "receipt" None)
             (stub (inl network_error) (inr (accepted None None))) 0 0 =
    (PRODUCTION_URL, "receipt") :: repeat (SANDBOX_URL, "receipt") n.
Proof.
  split; [reflexivity|].
  exact (X5_call_log_shape "receipt" None
           (stub (inl network_error) (inr (accepted None None))) 0 0 eq_refl).
Defined.

(** X6.  The production environment is adopted exactly when the first
    production call returns an answer whose status is not 21007, and then
    that answer is the adopted one; an answer adopted as sandbox is the
    answer of the second or the third call, made to the sandbox endpoint. *)
Theorem X6_adopted_environment :
  forall (upstream : Upstream) (rd : string) (r : AppleResponse),
    (adopted upstream rd = Some (r, production) <->
     upstream 0%nat PRODUCTION_URL rd = inr r /\ status r <> Some 21007) /\
    (adopted upstream rd = Some (r, sandbox) ->
     upstream 1%nat SANDBOX_URL rd = inr r \/
     upstream 2%nat SANDBOX_URL rd = inr r).
Proof.
  intros upstream rd r. unfold adopted.
  pose proof (select_environment_run upstream rd cors_res) as R.
  split; [split|].
  - intros H. split_upstream R; rewrite R in H; cbn [fst] in H; try discriminate.
    injection H as <-. split; [reflexivity|].
    now apply status_is_false.
  - intros [H0 Hst]. rewrite H0 in R.
    apply status_is_false in Hst. rewrite Hst in R. now rewrite R.
  - intros H. split_upstream R; rewrite R in H; cbn [fst] in H; try discriminate;
      injection H as <-; auto.
Qed.

(** X7.  The handler answers with the give-up answer of lines 103-106
    (HTTP 500, "Receipt validation failed with Apple") exactly when its
    last two upstream calls both throw: the production call and the sandbox
    call after it, or, after a production answer with status 21007, the two
    sandbox calls.  In exactly these cases no upstream answer is adopted. *)
Theorem X7_gives_up_exactly_when :
  forall (rd : string) (product : option string) (upstream : Upstream)
         (currentDate stamp : Z),
    falsy (Some rd) = false ->
    (response_of (post rd product) upstream currentDate stamp = gave_up cors_res <->
     (exists e1 e2,
         upstream 0%nat PRODUCTION_URL rd = inl e1 /\
         upstream 1%nat SANDBOX_URL rd = inl e2) \/
     (exists r e1 e2,
         upstream 0%nat PRODUCTION_URL rd = inr r /\
         status r = Some 21007 /\
         upstream 1%nat SANDBOX_URL rd = inl e1 /\
         upstream 2%nat SANDBOX_URL rd = inl e2)) /\
    (adopted upstream rd = None <->
     response_of (post rd product) upstream currentDate stamp = gave_up cors_res).
Proof.
  intros rd product upstream currentDate stamp Hrd.
  assert (Hiff : adopted upstream rd = None <->
                 (exists e1 e2,
                     upstream 0%nat PRODUCTION_URL rd = inl e1 /\
                     upstream 1%nat SANDBOX_URL rd = inl e2) \/
                 (exists r e1 e2,
                     upstream 0%nat PRODUCTION_URL rd = inr r /\
                     status r = Some 21007 /\
                     upstream 1%nat SANDBOX_URL rd = inl e1 /\
                     upstream 2%nat SANDBOX_URL rd = inl e2)).
  { unfold adopted.
    pose proof (select_environment_run upstream rd cors_res) as R.
    split.
    - intros H. split_upstream R; rewrite R in H; cbn [fst] in H; try discriminate;
        try match goal with
            | Hs : status_is _ _ = true |- _ => apply status_is_true in Hs
            end;
        first [ solve [left; eauto] | solve [right; eauto 10] ].
    - intros [(e1 & e2 & H0 & H1)|(r & e1 & e2 & H0 & Hst & H1 & H2)].
      + rewrite H0, H1 in R. now rewrite R.
      + apply status_is_true in Hst. rewrite H0, Hst, H1, H2 in R. now rewrite R. }
  assert (Hgave : adopted upstream rd = None <->
                  response_of (post rd product) upstream currentDate stamp
                  = gave_up cors_res).
  { unfold response_of. rewrite handler_post by assumption. unfold adopted.
    pose proof (select_environment_run upstream rd cors_res) as R.
    split.
    - intros H. split_upstream R; rewrite R in H |- *; cbn [fst] in H;
        try discriminate; reflexivity.
    - intros H. split_upstream R; rewrite R in H |- *; cbn [fst] in H |- *;
        try reflexivity; exfalso;
        apply (f_equal statusCode) in H;
        rewrite classify_statusCode in H; discriminate H. }
  split; [|exact Hgave].
  rewrite <- Hgave. exact Hiff.
Qed.

Lemma X7_gives_up_exactly_when_witness :
  falsy (Some "receipt") = false /\
  response_of (post "receipt" None)
              (stub (inr (status_only 21007)) (inl timeout_error)) 0 0
  = gave_up cors_res /\
  adopted (stub (inr (status_only 21007)) (inl timeout_error)) "receipt" = None.
Proof.
  split; [reflexivity|].
  destruct (X7_gives_up_exactly_when "receipt" None
              (stub (inr (status_only 21007)) (inl timeout_error)) 0 0 eq_refl)
    as ((_ & Hback) & (_ & Hnone)).
  assert (Hg : response_of (post "receipt" None)
                 (stub (inr (status_only 21007)) (inl timeout_error)) 0 0
               = gave_up cors_res).
  { apply Hback. right.
    exists (status_only 21007), timeout_error, timeout_error.
    repeat split. }
  split; [exact Hg|exact (Hnone Hg)].
Defined.

Lemma X6_adopted_environment_witness :
  stub (inr (status_only 21003)) (inl network_error) 0%nat PRODUCTION_URL "receipt"
    = inr (status_only 21003) /\
  status (status_only 21003) <> Some 21007 /\
  adopted (stub (inr (status_only 21003)) (inl network_error)) "receipt"
    = Some (status_only 21003, production).
Proof.
  assert (H : status (status_only 21003) <> Some 21007) by discriminate.
  split; [reflexivity|]. split; [exact H|].
  exact (proj2 (proj1 (X6_adopted_environment
                         (stub (inr (status_only 21003)) (inl network_error))
                         "receipt" (status_only 21003)))
               (conj eq_refl H)).
Defined.

(** ** What the detection methods record (lines 157-258) *)

Lemma latestTransaction_monthly (r : AppleResponse) (t : Item) :
  latestTransaction r = Some t ->
  is_monthly t = true /\
  exists infos, latest_receipt_info r = Some infos /\ In t infos.
Proof.
  unfold latestTransaction.
  destruct (latest_receipt_info r) as [infos|]; [|discriminate].
  destruct (0 <? Z.of_nat (List.length infos)); [|discriminate].
  cbv zeta.
  destruct (0 <? Z.of_nat (List.length (filter is_monthly infos))); [|discriminate].
  intros H.
  assert (Hin : In t (array_sort by_expires_desc (filter is_monthly infos))).
  { destruct (array_sort by_expires_desc (filter is_monthly infos));
      [discriminate|]. injection H as ->. now left. }
  apply array_sort_In, filter_In in Hin. destruct Hin as [Hin Hm].
  split; [exact Hm|]. eauto.
Qed.

Lemma method1_result (r : AppleResponse) (env : Environment) (currentDate : Z)
    (st : DetectState) :
  method1 r env currentDate st = st \/
  exists t T,
    latestTransaction r = Some t /\
    parseInt (expires_date_ms t) = Num T /\
    T > currentDate - gracePeriod /\
    method1 r env currentDate st =
      mkState true
        (Some (ActiveSubscription (Some MONTHLY) (new_Date (Num T))
                 (transaction_id t) env
                 (strict_eq (is_trial_period t) "true")
                 (strict_eq (is_in_intro_offer_period t) "true"))).
Proof.
  unfold method1, check_expiry.
  destruct (latestTransaction r) as [t|] eqn:Ht; [|now left].
  destruct (parseInt (expires_date_ms t)) as [|T] eqn:ET; [now left|].
  cbn [js_gt]. destruct (T >? currentDate - gracePeriod) eqn:E; [|now left].
  right. exists t, T. repeat split; try assumption.
  - now apply Z.gtb_gt.
  - destruct (latestTransaction_monthly r t Ht) as [Hm _].
    apply strict_eq_true in Hm. now rewrite Hm.
Qed.

Lemma method2_result (r : AppleResponse) (env : Environment) (st : DetectState) :
  method2 r env st = st \/
  exists p,
    isValidSubscription st = false /\
    hd_error (array_sort by_purchase_desc (relevantPurchases r)) = Some p /\
    In p (relevantPurchases r) /\
    method2 r env st =
      mkState true
        (Some (PastPurchase (Some MONTHLY) (transaction_id p) env
                 (new_Date (parseInt (purchase_date_ms p))))).
Proof.
  unfold method2, relevantPurchases, receipt_in_app.
  destruct (isValidSubscription st); [now left|]. cbn [negb].
  destruct (receipt r) as [rc|]; [|now left].
  destruct (in_app rc) as [ps|]; [|now left].
  cbv zeta.
  destruct (0 <? Z.of_nat (List.length (filter is_monthly ps))); [|now left].
  destruct (array_sort by_purchase_desc (filter is_monthly ps)) as [|p l] eqn:E;
    [now left|].
  right. exists p.
  assert (Hin : In p (filter is_monthly ps)).
  { apply (array_sort_In by_purchase_desc). rewrite E. now left. }
  repeat split; try assumption.
  apply filter_In in Hin. destruct Hin as [_ Hm].
  apply strict_eq_true in Hm. now rewrite Hm.
Qed.

Lemma method3_result (r : AppleResponse) (env : Environment) (st : DetectState) :
  method3 r env st = st \/
  exists rs p,
    isValidSubscription st = false /\
    env = sandbox /\
    pending_renewal_info r = Some rs /\
    array_find is_monthly rs = Some p /\
    auto_renew_status p = Some "1" /\
    method3 r env st =
      mkState true (Some (PendingRenewal (Some MONTHLY) true env (Some "1"))).
Proof.
  unfold method3.
  destruct (isValidSubscription st); [now left|]. cbn [negb].
  destruct (pending_renewal_info r) as [rs|]; [|now left].
  destruct env; cbn [Environment_eqb]; [now left|].
  destruct (array_find is_monthly rs) as [p|] eqn:Ef; [|now left].
  destruct (strict_eq (auto_renew_status p) "1") eqn:Ea; [|now left].
  right. exists rs, p. apply strict_eq_true in Ea.
  unfold array_find in Ef. destruct (find_some _ _ Ef) as [_ Hm].
  apply strict_eq_true in Hm. rewrite Hm, Ea. repeat split; assumption.
Qed.

Lemma method4_result (r : AppleResponse) (env : Environment) (st : DetectState) :
  method4 r env st = st \/
  (isValidSubscription st = false /\
   env = sandbox /\
   method4 r env st = mkState true (Some (SandboxFallback MONTHLY env true))).
Proof.
  unfold method4.
  destruct (isValidSubscription st); [now left|]. cbn [negb andb].
  destruct env; cbn [Environment_eqb andb]; [now left|].
  destruct (strict_eq (receipt_bundle_id r) BUNDLE_ID); [|now left].
  right. repeat split.
Qed.

(** The information left by the four methods, by the method that wrote it. *)
Lemma detect_info_cases (r : AppleResponse) (env : Environment) (currentDate : Z)
    (i : SubscriptionInfo) :
  subscriptionInfo (detect r env currentDate) = Some i ->
  (exists t T,
      latestTransaction r = Some t /\
      parseInt (expires_date_ms t) = Num T /\
      T > currentDate - gracePeriod /\
      i = ActiveSubscription (Some MONTHLY) (new_Date (Num T)) (transaction_id t) env
            (strict_eq (is_trial_period t) "true")
            (strict_eq (is_in_intro_offer_period t) "true")) \/
  (exists p,
      In p (relevantPurchases r) /\
      i = PastPurchase (Some MONTHLY) (transaction_id p) env
            (new_Date (parseInt (purchase_date_ms p)))) \/
  (exists rs p,
      env = sandbox /\
      pending_renewal_info r = Some rs /\
      array_find is_monthly rs = Some p /\
      auto_renew_status p = Some "1" /\
      i = PendingRenewal (Some MONTHLY) true env (Some "1")) \/
  (env = sandbox /\ i = SandboxFallback MONTHLY env true).
Proof.
  unfold detect.
  destruct (method4_result r env
              (method3 r env (method2 r env
                 (method1 r env currentDate initial_state))))
    as [E4|(_ & He & E4)]; rewrite E4.
  2:{ cbn [subscriptionInfo]. intros H. injection H as <-. auto. }
  destruct (method3_result r env
              (method2 r env (method1 r env currentDate initial_state)))
    as [E3|(rs & p & _ & He & Hrs & Hf & Ha & E3)]; rewrite E3.
  2:{ cbn [subscriptionInfo]. intros H. injection H as <-.
      right; right; left. exists rs, p. repeat split; assumption. }
  destruct (method2_result r env (method1 r env currentDate initial_state))
    as [E2|(p & _ & _ & Hin & E2)]; rewrite E2.
  2:{ cbn [subscriptionInfo]. intros H. injection H as <-. right; left. eauto. }
  destruct (method1_result r env currentDate initial_state)
    as [E1|(t & T & Ht & ET & Hgt & E1)]; rewrite E1.
  - discriminate.
  - cbn [subscriptionInfo]. intros H. injection H as <-. left. eauto 10.
Qed.

(** A verdict with subscription information comes from the detection on an
    adopted answer with status 0 and the right bundle id. *)
Lemma verdict_from_detect (req : Request) (upstream : Upstream)
    (currentDate stamp : Z) :
  verdict_subscriptionInfo (response_of req upstream currentDate stamp) <> None ->
  exists b rd r env,
    method req = "POST" /\
    body req = Some b /\
    receiptData b = Some rd /\
    falsy (Some rd) = false /\
    bundleId b = Some BUNDLE_ID /\
    adopted upstream rd = Some (r, env) /\
    status r = Some 0 /\
    receipt_bundle_id r = Some BUNDLE_ID /\
    response_of req upstream currentDate stamp =
      final_verdict r env (detect r env currentDate) stamp cors_res.
Proof.
  unfold response_of. rewrite handler_run. unfold adopted.
  destruct (String.eqb (method req) "OPTIONS"); [intros H; now elim H|].
  destruct (String.eqb (method req) "POST") eqn:Em; cbn [negb];
    [|intros H; now elim H].
  apply String.eqb_eq in Em.
  destruct (body req) as [b|]; [|intros H; now elim H].
  destruct (falsy (receiptData b)) eqn:Ef; [intros H; now elim H|].
  destruct (strict_eq (bundleId b) BUNDLE_ID) eqn:Eb; cbn [negb];
    [|intros H; now elim H].
  apply strict_eq_true in Eb.
  destruct (receiptData b) as [rd|] eqn:Er; [|discriminate].
  destruct (select_environment upstream rd cors_res []) as [[e|[early|[r env]]] log]
    eqn:Esel; try (intros H; now elim H).
  cbn [fst]. unfold classify.
  destruct (status_is (status r) 0) eqn:Es; cbn [negb].
  2:{ unfold status_failure. destruct (status_is (status r) 21006);
        intros H; now elim H. }
  destruct (strict_eq (receipt_bundle_id r) BUNDLE_ID) eqn:Erb; cbn [negb];
    [|intros H; now elim H].
  intros _. apply status_is_true in Es. apply strict_eq_true in Erb.
  exists b, rd, r, env. rewrite Esel. repeat split; assumption.
Qed.

Lemma final_verdict_fields (r : AppleResponse) (env : Environment)
    (st : DetectState) (stamp : Z) (res : Response) :
  verdict_isValid (final_verdict r env st stamp res) = Some (isValidSubscription st) /\
  verdict_environment (final_verdict r env st stamp res) = Some env /\
  verdict_subscriptionInfo (final_verdict r env st stamp res)
    = Some (subscriptionInfo st) /\
  statusCode (final_verdict r env st stamp res) = statusCode res.
Proof.
  unfold final_verdict, verdict_isValid, verdict_environment,
    verdict_subscriptionInfo.
  destruct (isValidSubscription st); repeat split.
Qed.

Lemma valid_has_info (req : Request) (upstream : Upstream) (currentDate stamp : Z) :
  verdict_isValid (response_of req upstream currentDate stamp) = Some true ->
  verdict_subscriptionInfo (response_of req upstream currentDate stamp) <> None.
Proof.
  intros H.
  destruct (response_of_cases req upstream currentDate stamp)
    as [[Hn _]|(rd & r & env & _ & E)]; [contradiction|].
  rewrite E in *.
  destruct (classify_valid_has_info r env currentDate stamp cors_res H) as [i Hi].
  rewrite Hi. discriminate.
Qed.

(** X8.  The answer carries the header [Cache-Control: private,
    max-age=300] exactly when its verdict says [isValid: true]. *)
Theorem X8_cache_header_iff_valid :
  forall (req : Request) (upstream : Upstream) (currentDate stamp : Z),
    In cache_header (headers (response_of req upstream currentDate stamp)) <->
    verdict_isValid (response_of req upstream currentDate stamp) = Some true.
Proof.
  intros req upstream currentDate stamp.
  assert (Hcors : forall out, headers out = headers cors_res ->
                              verdict_isValid out <> Some true ->
                              (In cache_header (headers out) <->
                               verdict_isValid out = Some true)).
  { intros out Hh Hv. rewrite Hh. split; [|contradiction].
    simpl. intros [H|[H|[H|[]]]]; discriminate. }
  unfold response_of. rewrite handler_run.
  destruct (String.eqb (method req) "OPTIONS");
    [apply Hcors; [reflexivity|discriminate]|].
  destruct (negb (String.eqb (method req) "POST"));
    [apply Hcors; [reflexivity|discriminate]|].
  destruct (body req) as [b|]; [|apply Hcors; [reflexivity|discriminate]].
  destruct (falsy (receiptData b)); [apply Hcors; [reflexivity|discriminate]|].
  destruct (negb (strict_eq (bundleId b) BUNDLE_ID));
    [apply Hcors; [reflexivity|discriminate]|].
  destruct (select_environment upstream _ cors_res []) as [[e|[early|[r env]]] log];
    try (apply Hcors; [reflexivity|discriminate]).
  cbn [fst]. rewrite classify_headers.
  destruct (verdict_isValid (classify r env currentDate stamp cors_res))
    as [[|]|]; rewrite in_app_iff; simpl; split;
    try discriminate; try tauto;
    intros [[H|[H|[H|[]]]]|[]]; discriminate.
Qed.

(** X9.  A verdict is valid only for a POST with a non-empty receipt and the
    app's bundle id whose adopted upstream answer has status 0 and carries
    the app's bundle id; the HTTP status is then 200 and the [environment]
    key names the environment that was adopted. *)
Theorem X9_valid_only_for_accepted_receipt_of_this_app :
  forall (req : Request) (upstream : Upstream) (currentDate stamp : Z),
    verdict_isValid (response_of req upstream currentDate stamp) = Some true ->
    exists b rd r env,
      method req = "POST" /\
      body req = Some b /\
      receiptData b = Some rd /\
      falsy (Some rd) = false /\
      bundleId b = Some BUNDLE_ID /\
      adopted upstream rd = Some (r, env) /\
      status r = Some 0 /\
      receipt_bundle_id r = Some BUNDLE_ID /\
      statusCode (response_of req upstream currentDate stamp) = 200 /\
      verdict_environment (response_of req upstream currentDate stamp) = Some env.
Proof.
  intros req upstream currentDate stamp Hv.
  destruct (verdict_from_detect req upstream currentDate stamp
              (valid_has_info req upstream currentDate stamp Hv))
    as (b & rd & r & env & Hm & Hb & Hr & Hf & Hbid & Had & Hst & Hrb & E).
  exists b, rd, r, env. rewrite E.
  destruct (final_verdict_fields r env (detect r env currentDate) stamp cors_res)
    as (_ & He & _ & Hc).
  repeat split; assumption.
Qed.

Lemma X9_valid_only_for_accepted_receipt_of_this_app_witness :
  verdict_isValid
    (response_of (post "receipt" None)
       (stub (inr (accepted None (Some [purchase "1700000000000" "p1"])))
             (inl network_error)) 5 7) = Some true /\
  exists b rd r env,
    method (post "receipt" None) = "POST" /\
    body (post "receipt" None) = Some b /\
    receiptData b = Some rd /\
    falsy (Some rd) = false /\
    bundleId b = Some BUNDLE_ID /\
    adopted (stub (inr (accepted None (Some [purchase "1700000000000" "p1"])))
                  (inl network_error)) rd = Some (r, env) /\
    status r = Some 0 /\
    receipt_bundle_id r = Some BUNDLE_ID /\
    statusCode
      (response_of (post "receipt" None)
         (stub (inr (accepted None (Some [purchase "1700000000000" "p1"])))
               (inl network_error)) 5 7) = 200 /\
    verdict_environment
      (response_of (post "receipt" None)
         (stub (inr (accepted None (Some [purchase "1700000000000" "p1"])))
               (inl network_error)) 5 7) = Some env.
Proof.
  split; [reflexivity|].
  exact (X9_valid_only_for_accepted_receipt_of_this_app (post "receipt" None)
           (stub (inr (accepted None (Some [purchase "1700000000000" "p1"])))
                 (inl network_error)) 5 7 eq_refl).
Defined.

Lemma method4_sandbox_valid (r : AppleResponse) (st : DetectState) :
  receipt_bundle_id r = Some BUNDLE_ID ->
  isValidSubscription (method4 r sandbox st) = true.
Proof.
  intros Hb. unfold method4. rewrite Hb.
  destruct (isValidSubscription st) eqn:E; [exact E|reflexivity].
Qed.

(** X10.  From the sandbox every accepted receipt of the app is valid: an
    answer adopted as sandbox with status 0 and the app's bundle id gives
    [isValid: true], whatever its transaction history and whatever the
    clock, and the answer is cacheable. *)
Theorem X10_sandbox_always_valid :
  forall (rd : string) (product : option string) (upstream : Upstream)
         (currentDate stamp : Z) (r : AppleResponse),
    falsy (Some rd) = false ->
    adopted upstream rd = Some (r, sandbox) ->
    status r = Some 0 ->
    receipt_bundle_id r = Some BUNDLE_ID ->
    verdict_isValid (response_of (post rd product) upstream currentDate stamp)
      = Some true /\
    headers (response_of (post rd product) upstream currentDate stamp)
      = (headers cors_res ++ [cache_header])%list.
Proof.
  intros rd product upstream currentDate stamp r Hrd Had Hst Hb.
  rewrite (handler_adopted rd product upstream currentDate stamp r sandbox Hrd Had).
  assert (Hv : verdict_isValid (classify r sandbox currentDate stamp cors_res)
               = Some true).
  { unfold classify. rewrite Hst, Hb. cbn [status_is Z.eqb negb].
    change (strict_eq (Some BUNDLE_ID) BUNDLE_ID) with true. cbn [negb].
    rewrite (proj1 (final_verdict_fields _ _ _ _ _)).
    unfold detect. now rewrite method4_sandbox_valid. }
  split; [exact Hv|]. rewrite classify_headers, Hv. reflexivity.
Qed.

Lemma X10_sandbox_always_valid_witness :
  falsy (Some "receipt") = false /\
  verdict_isValid
    (response_of (post "receipt" None)
       (stub (inl timeout_error)
             (inr (accepted (Some [transaction "1000" "t1"]) (Some []))))
       1700000000000 1700000000000) = Some true.
Proof.
  split; [reflexivity|].
  exact (proj1 (X10_sandbox_always_valid "receipt" None
                  (stub (inl timeout_error)
                        (inr (accepted (Some [transaction "1000" "t1"]) (Some []))))
                  1700000000000 1700000000000
                  (accepted (Some [transaction "1000" "t1"]) (Some []))
                  eq_refl eq_refl eq_refl eq_refl)).
Defined.

Lemma method2_initial_flag (r : AppleResponse) (env : Environment) :
  isValidSubscription (method2 r env initial_state) =
  (0 <? Z.of_nat (List.length (relevantPurchases r))).
Proof.
  unfold method2, relevantPurchases, receipt_in_app. cbn [initial_state
    isValidSubscription negb].
  destruct (receipt r) as [rc|]; [|reflexivity].
  destruct (in_app rc) as [ps|]; [|reflexivity].
  cbv zeta.
  destruct (0 <? Z.of_nat (List.length (filter is_monthly ps))) eqn:E;
    [|reflexivity].
  pose proof (array_sort_length by_purchase_desc (filter is_monthly ps)) as L.
  destruct (array_sort by_purchase_desc (filter is_monthly ps)); [|reflexivity].
  simpl in L. rewrite <- L in E. discriminate.
Qed.

Lemma verdict_info_detect (req : Request) (upstream : Upstream)
    (currentDate stamp : Z) (i : SubscriptionInfo) :
  verdict_subscriptionInfo (response_of req upstream currentDate stamp)
    = Some (Some i) ->
  exists rd r env,
    adopted upstream rd = Some (r, env) /\
    subscriptionInfo (detect r env currentDate) = Some i /\
    verdict_environment (response_of req upstream currentDate stamp) = Some env /\
    verdict_isValid (response_of req upstream currentDate stamp) = Some true.
Proof.
  intros H.
  destruct (verdict_from_detect req upstream currentDate stamp)
    as (b & rd & r & env & _ & _ & _ & _ & _ & Had & _ & _ & E).
  { rewrite H. discriminate. }
  rewrite E in *.
  destruct (final_verdict_fields r env (detect r env currentDate) stamp cors_res)
    as (Hv & He & Hi & _).
  rewrite Hi in H. injection H as H.
  exists rd, r, env. repeat split; try assumption.
  rewrite Hv. f_equal.
  destruct (isValidSubscription (detect r env currentDate)) eqn:Ef; [reflexivity|].
  rewrite (detect_invalid_null r env currentDate Ef) in H. discriminate.
Qed.

(** X12.  Whenever the verdict carries subscription information, the
    verdict is valid, the environment named inside the information is the
    one named by the verdict, and the product is the monthly subscription
    whichever method produced it. *)
Theorem X12_subscription_info_consistent :
  forall (req : Request) (upstream : Upstream) (currentDate stamp : Z)
         (i : SubscriptionInfo),
    verdict_subscriptionInfo (response_of req upstream currentDate stamp)
      = Some (Some i) ->
    verdict_isValid (response_of req upstream currentDate stamp) = Some true /\
    verdict_environment (response_of req upstream currentDate stamp)
      = Some (info_environment i) /\
    info_productId i = Some MONTHLY.
Proof.
  intros req upstream currentDate stamp i H.
  destruct (verdict_info_detect req upstream currentDate stamp i H)
    as (rd & r & env & _ & Hd & He & Hv).
  split; [exact Hv|]. rewrite He.
  destruct (detect_info_cases r env currentDate i Hd)
    as [(t & T & _ & _ & _ & ->)
       |[(p & _ & ->)
        |[(rs & p & _ & _ & _ & _ & ->)|(_ & ->)]]];
    split; reflexivity.
Qed.

Lemma X12_subscription_info_consistent_witness :
  verdict_subscriptionInfo
    (response_of (post "receipt" None)
       (stub (inl network_error) (inr (accepted None None))) 5 7)
    = Some (Some (SandboxFallback MONTHLY sandbox true)) /\
  verdict_environment
    (response_of (post "receipt" None)
       (stub (inl network_error) (inr (accepted None None))) 5 7)
    = Some sandbox.
Proof.
  split; [reflexivity|].
  exact (proj1 (proj2 (X12_subscription_info_consistent (post "receipt" None)
                         (stub (inl network_error) (inr (accepted None None))) 5 7
                         (SandboxFallback MONTHLY sandbox true) eq_refl))).
Defined.

(** X13.  A pending-renewal or fallback [subscriptionInfo] appears only in
    a sandbox verdict; a pending renewal always shows [isPending: true] and
    [autoRenewStatus: '1'], a fallback [fallback: true].  A production
    verdict therefore holds an active subscription, a past purchase, or
    null. *)
Theorem X13_pending_and_fallback_are_sandbox_only :
  forall (req : Request) (upstream : Upstream) (currentDate stamp : Z)
         (i : SubscriptionInfo),
    verdict_subscriptionInfo (response_of req upstream currentDate stamp)
      = Some (Some i) ->
    match i with
    | PendingRenewal _ isPending _ autoRenewStatus =>
        verdict_environment (response_of req upstream currentDate stamp)
          = Some sandbox /\
        isPending = true /\ autoRenewStatus = Some "1"
    | SandboxFallback _ _ fallback =>
        verdict_environment (response_of req upstream currentDate stamp)
          = Some sandbox /\
        fallback = true
    | ActiveSubscription _ _ _ _ _ _ | PastPurchase _ _ _ _ => True
    end.
Proof.
  intros req upstream currentDate stamp i H.
  destruct (verdict_info_detect req upstream currentDate stamp i H)
    as (rd & r & env & _ & Hd & He & _).
  rewrite He.
  destruct (detect_info_cases r env currentDate i Hd)
    as [(t & T & _ & _ & _ & ->)
       |[(p & _ & ->)
        |[(rs & p & -> & _ & _ & _ & ->)|(-> & ->)]]];
    repeat split.
Qed.

Lemma X13_pending_and_fallback_are_sandbox_only_witness :
  verdict_subscriptionInfo
    (response_of (post "receipt" None)
       (stub (inl network_error)
             (inr (mkAppleResponse (Some 0) (Some (mkReceipt (Some BUNDLE_ID) None))
                     None
                     (Some [mkItem (Some MONTHLY) None None None None None (Some "1")]))))
       5 7)
    = Some (Some (PendingRenewal (Some MONTHLY) true sandbox (Some "1"))) /\
  verdict_environment
    (response_of (post "receipt" None)
       (stub (inl network_error)
             (inr (mkAppleResponse (Some 0) (Some (mkReceipt (Some BUNDLE_ID) None))
                     None
                     (Some [mkItem (Some MONTHLY) None None None None None (Some "1")]))))
       5 7)
    = Some sandbox.
Proof.
  split; [reflexivity|].
  exact (proj1 (X13_pending_and_fallback_are_sandbox_only (post "receipt" None)
                  (stub (inl network_error)
                        (inr (mkAppleResponse (Some 0)
                                (Some (mkReceipt (Some BUNDLE_ID) None)) None
                                (Some [mkItem (Some MONTHLY) None None None None None
                                         (Some "1")]))))
                  5 7 (PendingRenewal (Some MONTHLY) true sandbox (Some "1"))
                  eq_refl)).
Defined.

Lemma later_methods_keep_valid_34 (r : AppleResponse) (env : Environment)
    (st : DetectState) :
  isValidSubscription st = true ->
  method4 r env (method3 r env st) = st.
Proof.
  intros H.
  assert (E3 : method3 r env st = st) by (unfold method3; now rewrite H).
  rewrite E3. unfold method4. now rewrite H.
Qed.

(** The flag after the four methods, for an answer with the app's bundle
    id: method 1's test, or a purchase of the product in [in_app], or the
    sandbox. *)
Lemma detect_flag (r : AppleResponse) (env : Environment) (currentDate : Z) :
  receipt_bundle_id r = Some BUNDLE_ID ->
  isValidSubscription (detect r env currentDate) =
  isValidSubscription (method1 r env currentDate initial_state)
  || (0 <? Z.of_nat (List.length (relevantPurchases r)))
  || Environment_eqb env sandbox.
Proof.
  intros Hb. unfold detect.
  destruct (method1_assigns r env currentDate initial_state) as [E1|[i1 E1]];
    rewrite E1.
  2:{ now rewrite later_methods_keep_valid by reflexivity. }
  cbn [initial_state isValidSubscription orb].
  fold initial_state.
  pose proof (method2_initial_flag r env) as F2.
  destruct (method2_assigns r env initial_state) as [E2|[i2 E2]]; rewrite E2 in *.
  2:{ rewrite later_methods_keep_valid_34 by reflexivity.
      cbn [isValidSubscription] in *. now rewrite <- F2. }
  cbn [initial_state isValidSubscription] in F2. rewrite <- F2. cbn [orb].
  fold initial_state.
  destruct (method3_result r env initial_state)
    as [E3|(rs & p & _ & -> & _ & _ & _ & E3)]; rewrite E3.
  2:{ unfold method4. reflexivity. }
  destruct env.
  - now rewrite method4_production.
  - now rewrite method4_sandbox_valid.
Qed.

(** When every transaction for the product has an expiry that parses,
    method 1's test succeeds exactly when one of them passes it. *)
Lemma method1_flag_iff (r : AppleResponse) (env : Environment) (currentDate : Z) :
  (forall infos x, latest_receipt_info r = Some infos -> In x infos ->
                   is_monthly x = true ->
                   parseInt (expires_date_ms x) <> NaN) ->
  (isValidSubscription (method1 r env currentDate initial_state) = true <->
   exists infos x e,
     latest_receipt_info r = Some infos /\ In x infos /\ is_monthly x = true /\
     parseInt (expires_date_ms x) = Num e /\ e > currentDate - gracePeriod).
Proof.
  intros Hparse. split.
  - intros Hf.
    destruct (method1_result r env currentDate initial_state)
      as [E|(t & T & Ht & ET & Hgt & _)].
    + rewrite E in Hf. discriminate.
    + destruct (latestTransaction_monthly r t Ht) as (Hm & infos & Hinfo & Hin).
      exists infos, t, T. repeat split; assumption.
  - intros (infos & x & e & Hinfo & Hin & Hm & He & Hgt).
    destruct (latestTransaction_max r infos Hinfo
                (ex_intro _ x (conj Hin Hm))
                (fun y => Hparse infos y Hinfo))
      as (t & T & Ht & _ & _ & ET & Hmax).
    specialize (Hmax x e Hin Hm He).
    unfold method1. rewrite Ht. unfold check_expiry. rewrite ET. cbn [js_gt].
    assert (Hg : (T >? currentDate - gracePeriod) = true) by (apply Z.gtb_gt; lia).
    now rewrite Hg.
Qed.

(** X11.  From production an accepted receipt of the app, in which the
    expiry of every transaction for the monthly product parses as a safe
    integer, is valid exactly when one of these transactions expires later
    than the clock reading minus the grace period, or the [in_app] array
    holds a purchase of the monthly product; renewal information and the
    fallback play no part. *)
Theorem X11_production_validity :
  forall (rd : string) (product : option string) (upstream : Upstream)
         (currentDate stamp : Z) (r : AppleResponse),
    falsy (Some rd) = false ->
    adopted upstream rd = Some (r, production) ->
    status r = Some 0 ->
    receipt_bundle_id r = Some BUNDLE_ID ->
    (forall infos x, latest_receipt_info r = Some infos -> In x infos ->
                     is_monthly x = true ->
                     isSafeInteger (parseInt (expires_date_ms x)) = true) ->
    exists b : bool,
      verdict_isValid (response_of (post rd product) upstream currentDate stamp)
        = Some b /\
      (b = true <->
       (exists infos x e,
           latest_receipt_info r = Some infos /\ In x infos /\
           is_monthly x = true /\
           parseInt (expires_date_ms x) = Num e /\
           e > currentDate - gracePeriod) \/
       relevantPurchases r <> []).
Proof.
  intros rd product upstream currentDate stamp r Hrd Had Hst Hb Hsafe.
  rewrite (handler_adopted rd product upstream currentDate stamp r production Hrd Had).
  unfold classify. rewrite Hst, Hb. cbn [status_is Z.eqb negb].
  change (strict_eq (Some BUNDLE_ID) BUNDLE_ID) with true. cbn [negb].
  rewrite (proj1 (final_verdict_fields _ _ _ _ _)).
  exists (isValidSubscription (detect r production currentDate)).
  split; [reflexivity|].
  rewrite (detect_flag r production currentDate Hb).
  cbn [Environment_eqb]. rewrite orb_false_r, orb_true_iff.
  assert (Hparse : forall infos x, latest_receipt_info r = Some infos -> In x infos ->
                                   is_monthly x = true ->
                                   parseInt (expires_date_ms x) <> NaN).
  { intros infos x Hi Hx Hm E.
    pose proof (Hsafe infos x Hi Hx Hm) as S. rewrite E in S. discriminate. }
  rewrite (method1_flag_iff r production currentDate Hparse).
  assert (Hlen : (0 <? Z.of_nat (List.length (relevantPurchases r))) = true <->
                 relevantPurchases r <> []).
  { destruct (relevantPurchases r); simpl List.length.
    - split; [discriminate|congruence].
    - split; [discriminate|]. intros _. apply Z.ltb_lt. lia. }
  rewrite Hlen. reflexivity.
Qed.

Lemma X11_production_validity_witness :
  falsy (Some "receipt") = false /\
  exists b : bool,
    verdict_isValid
      (response_of (post "receipt" None)
         (stub (inr (accepted (Some [transaction "1000" "t1";
                                     transaction "1700000000000" "t2"]) (Some [])))
               (inl timeout_error))
         1700000000000 1700000000000) = Some b /\
    (b = true <->
     (exists infos x e,
         latest_receipt_info
           (accepted (Some [transaction "1000" "t1";
                            transaction "1700000000000" "t2"]) (Some []))
         = Some infos /\ In x infos /\ is_monthly x = true /\
         parseInt (expires_date_ms x) = Num e /\
         e > 1700000000000 - gracePeriod) \/
     relevantPurchases
       (accepted (Some [transaction "1000" "t1";
                        transaction "1700000000000" "t2"]) (Some [])) <> []).
Proof.
  split; [reflexivity|].
  refine (X11_production_validity "receipt" None
            (stub (inr (accepted (Some [transaction "1000" "t1";
                                        transaction "1700000000000" "t2"]) (Some [])))
                  (inl timeout_error))
            1700000000000 1700000000000
            (accepted (Some [transaction "1000" "t1";
                             transaction "1700000000000" "t2"]) (Some []))
            eq_refl eq_refl eq_refl eq_refl _).
  intros infos x Hi Hx _. injection Hi as <-.
  destruct Hx as [<-|[<-|[]]]; reflexivity.
Defined.

(** X14.  When no transaction for the monthly product passes the expiry
    test and the [in_app] array holds a purchase of the monthly product, the
    verdict is valid in either environment, with the data of one of these
    purchases, whatever the purchase dates are; a date that does not parse
    is reported as an invalid date. *)
Theorem X14_purchase_is_valid_whatever_its_date :
  forall (rd : string) (product : option string) (upstream : Upstream)
         (currentDate stamp : Z) (r : AppleResponse) (env : Environment),
    falsy (Some rd) = false ->
    adopted upstream rd = Some (r, env) ->
    status r = Some 0 ->
    receipt_bundle_id r = Some BUNDLE_ID ->
    (forall infos x e, latest_receipt_info r = Some infos -> In x infos ->
                       is_monthly x = true ->
                       parseInt (expires_date_ms x) = Num e ->
                       e <= currentDate - gracePeriod) ->
    relevantPurchases r <> [] ->
    verdict_isValid (response_of (post rd product) upstream currentDate stamp)
      = Some true /\
    exists p,
      In p (relevantPurchases r) /\
      verdict_subscriptionInfo
        (response_of (post rd product) upstream currentDate stamp)
      = Some (Some (PastPurchase (Some MONTHLY) (transaction_id p) env
                      (new_Date (parseInt (purchase_date_ms p))))) /\
      (parseInt (purchase_date_ms p) = NaN ->
       new_Date (parseInt (purchase_date_ms p)) = None).
Proof.
  intros rd product upstream currentDate stamp r env Hrd Had Hst Hb Hexp Hne.
  rewrite (handler_adopted rd product upstream currentDate stamp r env Hrd Had).
  unfold classify. rewrite Hst, Hb. cbn [status_is Z.eqb negb].
  change (strict_eq (Some BUNDLE_ID) BUNDLE_ID) with true. cbn [negb].
  destruct (final_verdict_fields r env (detect r env currentDate) stamp cors_res)
    as (Hv & _ & Hi & _).
  rewrite Hv, Hi.
  assert (E1 : method1 r env currentDate initial_state = initial_state).
  { destruct (method1_result r env currentDate initial_state)
      as [E|(t & T & Ht & ET & Hgt & _)]; [exact E|].
    destruct (latestTransaction_monthly r t Ht) as (Hm & infos & Hinfo & Hin).
    pose proof (Hexp infos t T Hinfo Hin Hm ET). lia. }
  destruct (method2_result r env initial_state) as [E2|(p & _ & _ & Hin & E2)].
  { exfalso. pose proof (method2_initial_flag r env) as F.
    rewrite E2 in F. cbn [initial_state isValidSubscription] in F.
    destruct (relevantPurchases r); [congruence|]. discriminate. }
  unfold detect. rewrite E1, E2.
  rewrite later_methods_keep_valid_34 by reflexivity.
  split; [reflexivity|]. exists p. repeat split; try assumption.
  intros ->. reflexivity.
Qed.

Lemma X14_purchase_is_valid_whatever_its_date_witness :
  falsy (Some "receipt") = false /\
  verdict_isValid
    (response_of (post "receipt" None)
       (stub (inr (accepted None (Some [purchase "yesterday" "p1"])))
             (inl network_error)) 5 7) = Some true.
Proof.
  split; [reflexivity|].
  refine (proj1 (X14_purchase_is_valid_whatever_its_date "receipt" None
                   (stub (inr (accepted None (Some [purchase "yesterday" "p1"])))
                         (inl network_error)) 5 7
                   (accepted None (Some [purchase "yesterday" "p1"])) production
                   eq_refl eq_refl eq_refl eq_refl _ _)).
  - intros infos x e Hi. discriminate Hi.
  - discriminate.
Defined.

(** X15.  When the purchase date of every [in_app] purchase of the monthly
    product parses as a safe integer, the purchase method 2 reports is one
    with the greatest parsed purchase date, and that date is what the
    verdict shows. *)
Theorem X15_latest_purchase_is_reported :
  forall (r : AppleResponse) (env : Environment) (purchases : list Item),
    receipt_in_app r = Some purchases ->
    (exists x, In x purchases /\ is_monthly x = true) ->
    (forall x, In x purchases -> is_monthly x = true ->
               isSafeInteger (parseInt (purchase_date_ms x)) = true) ->
    exists (p : Item) (P : Z),
      In p purchases /\
      product_id p = Some MONTHLY /\
      parseInt (purchase_date_ms p) = Num P /\
      (forall x e, In x purchases -> is_monthly x = true ->
                   parseInt (purchase_date_ms x) = Num e -> e <= P) /\
      method2 r env initial_state =
        mkState true
          (Some (PastPurchase (Some MONTHLY) (transaction_id p) env
                   (new_Date (Num P)))).
Proof.
  intros r env purchases Hin_app (x0 & Hx0 & Hm0) Hsafe.
  assert (Hparse : forall x, In x purchases -> is_monthly x = true ->
                             parseInt (purchase_date_ms x) <> NaN).
  { intros x Hx Hm E. pose proof (Hsafe x Hx Hm) as S.
    rewrite E in S. discriminate. }
  set (key := fun x : Item =>
                match parseInt (purchase_date_ms x) with Num e => e | NaN => 0 end).
  assert (Hrel : relevantPurchases r = filter is_monthly purchases).
  { unfold relevantPurchases. now rewrite Hin_app. }
  assert (Hcmp : forall a b,
             In a (filter is_monthly purchases) ->
             In b (filter is_monthly purchases) ->
             by_purchase_desc a b = Num (key b - key a)).
  { intros a b Ha Hb. apply filter_In in Ha, Hb.
    destruct Ha as [Ha Hma], Hb as [Hb Hmb].
    pose proof (Hparse a Ha Hma) as Pa. pose proof (Hparse b Hb Hmb) as Pb.
    unfold by_purchase_desc, key.
    destruct (parseInt (purchase_date_ms a)); [congruence|].
    destruct (parseInt (purchase_date_ms b)); [congruence|].
    reflexivity. }
  assert (Hne : filter is_monthly purchases <> []).
  { intros E. assert (Hf : In x0 (filter is_monthly purchases))
      by (apply filter_In; now split).
    rewrite E in Hf. contradiction. }
  destruct (array_sort_hd_max by_purchase_desc key (filter is_monthly purchases)
              Hcmp Hne) as (p & Hhd & Hpin & Hmax).
  apply filter_In in Hpin. destruct Hpin as [Hpin Hpm].
  pose proof (Hparse p Hpin Hpm) as Pp.
  destruct (parseInt (purchase_date_ms p)) as [|P] eqn:EP; [congruence|].
  exists p, P.
  split; [exact Hpin|]. split; [now apply strict_eq_true|].
  split; [exact EP|]. split.
  { intros x e Hx Hmx Ex.
    assert (Hxf : In x (filter is_monthly purchases)) by (apply filter_In; now split).
    specialize (Hmax x Hxf). unfold key in Hmax. now rewrite Ex, EP in Hmax. }
  destruct (method2_result r env initial_state) as [E2|(q & _ & Hq & _ & E2)].
  - exfalso. pose proof (method2_initial_flag r env) as F.
    rewrite E2, Hrel in F. cbn [initial_state isValidSubscription] in F.
    destruct (filter is_monthly purchases); [congruence|]. discriminate.
  - rewrite Hrel, Hhd in Hq. injection Hq as <-. now rewrite E2, EP.
Qed.

Lemma X15_latest_purchase_is_reported_witness :
  receipt_in_app (accepted None (Some [purchase "9" "p1"; purchase "10" "p2"]))
    = Some [purchase "9" "p1"; purchase "10" "p2"] /\
  exists (p : Item) (P : Z),
    In p [purchase "9" "p1"; purchase "10" "p2"] /\
    parseInt (purchase_date_ms p) = Num P /\
    method2 (accepted None (Some [purchase "9" "p1"; purchase "10" "p2"]))
            production initial_state =
      mkState true
        (Some (PastPurchase (Some MONTHLY) (transaction_id p) production
                 (new_Date (Num P)))).
Proof.
  split; [reflexivity|].
  destruct (X15_latest_purchase_is_reported
              (accepted None (Some [purchase "9" "p1"; purchase "10" "p2"]))
              production [purchase "9" "p1"; purchase "10" "p2"] eq_refl
              (ex_intro _ (purchase "9" "p1") (conj (or_introl eq_refl) eq_refl)))
    as (p & P & Hin & _ & HP & _ & Hm).
  { intros x [<-|[<-|[]]] _; reflexivity. }
  exists p, P. split; [exact Hin|]. split; [exact HP|exact Hm].
Defined.

Lemma find_first {A : Type} (f : A -> bool) (pre post : list A) (p : A) :
  (forall x, In x pre -> f x = false) ->
  f p = true ->
  find f (pre ++ p :: post) = Some p.
Proof.
  induction pre as [|a pre IH]; intros Hpre Hp; simpl.
  - now rewrite Hp.
  - rewrite (Hpre a (or_introl eq_refl)). apply IH; [|exact Hp].
    intros x Hx. apply Hpre. now right.
Qed.

(** X16.  In the sandbox, when methods 1 and 2 find nothing, the first
    renewal record for the monthly product alone decides what is reported:
    a pending renewal if its [auto_renew_status] is '1', the fallback
    otherwise, even when a later record for the product has status '1'.
    The verdict is valid in both cases. *)
Theorem X16_first_renewal_record_decides :
  forall (rd : string) (product : option string) (upstream : Upstream)
         (currentDate stamp : Z) (r : AppleResponse)
         (before after : list Item) (p : Item),
    falsy (Some rd) = false ->
    adopted upstream rd = Some (r, sandbox) ->
    status r = Some 0 ->
    receipt_bundle_id r = Some BUNDLE_ID ->
    active_at r currentDate = false ->
    relevantPurchases r = [] ->
    pending_renewal_info r = Some (before ++ p :: after)%list ->
    (forall x, In x before -> is_monthly x = false) ->
    is_monthly p = true ->
    verdict_isValid (response_of (post rd product) upstream currentDate stamp)
      = Some true /\
    verdict_subscriptionInfo
      (response_of (post rd product) upstream currentDate stamp)
    = Some (Some (if strict_eq (auto_renew_status p) "1"
                  then PendingRenewal (Some MONTHLY) true sandbox (Some "1")
                  else SandboxFallback MONTHLY sandbox true)).
Proof.
  intros rd product upstream currentDate stamp r before after p
         Hrd Had Hst Hb Hact Hnop Hpend Hbefore Hp.
  rewrite (handler_adopted rd product upstream currentDate stamp r sandbox Hrd Had).
  unfold classify. rewrite Hst, Hb. cbn [status_is Z.eqb negb].
  change (strict_eq (Some BUNDLE_ID) BUNDLE_ID) with true. cbn [negb].
  destruct (final_verdict_fields r sandbox (detect r sandbox currentDate) stamp
              cors_res) as (Hv & _ & Hi & _).
  rewrite Hv, Hi.
  assert (E1 : method1 r sandbox currentDate initial_state = initial_state).
  { apply (method1_flag_env r production sandbox); [|reflexivity].
    unfold active_at in Hact.
    destruct (method1_assigns r production currentDate initial_state)
      as [E|[i E]]; [exact E|]. rewrite E in Hact. discriminate. }
  assert (E2 : method2 r sandbox initial_state = initial_state).
  { destruct (method2_result r sandbox initial_state) as [E|(q & _ & _ & Hq & _)];
      [exact E|]. rewrite Hnop in Hq. contradiction. }
  unfold detect. rewrite E1, E2.
  unfold method3. cbn [initial_state isValidSubscription negb Environment_eqb].
  rewrite Hpend. unfold array_find.
  rewrite (find_first is_monthly before after p Hbefore Hp).
  destruct (strict_eq (auto_renew_status p) "1") eqn:Ea.
  - apply strict_eq_true in Ea. apply strict_eq_true in Hp.
    rewrite Hp, Ea. unfold method4. cbn [isValidSubscription negb andb].
    split; reflexivity.
  - unfold method4. rewrite Hb.
    cbn [isValidSubscription negb andb Environment_eqb].
    change (strict_eq (Some BUNDLE_ID) BUNDLE_ID) with true.
    split; reflexivity.
Qed.

Lemma X16_first_renewal_record_decides_witness :
  falsy (Some "receipt") = false /\
  verdict_subscriptionInfo
    (response_of (post "receipt" None)
       (stub (inl network_error)
             (inr (mkAppleResponse (Some 0) (Some (mkReceipt (Some BUNDLE_ID) None))
                     None
                     (Some [mkItem (Some "com.elevenstoic.yearly") None None None None
                              None (Some "1");
                            mkItem (Some MONTHLY) None None None None None (Some "0");
                            mkItem (Some MONTHLY) None None None None None (Some "1")]))))
       5 7)
  = Some (Some (SandboxFallback MONTHLY sandbox true)).
Proof.
  split; [reflexivity|].
  refine (proj2 (X16_first_renewal_record_decides "receipt" None
                   (stub (inl network_error)
                      (inr (mkAppleResponse (Some 0)
                              (Some (mkReceipt (Some BUNDLE_ID) None)) None
                              (Some [mkItem (Some "com.elevenstoic.yearly") None None
                                       None None None (Some "1");
                                     mkItem (Some MONTHLY) None None None None None
                                       (Some "0");
                                     mkItem (Some MONTHLY) None None None None None
                                       (Some "1")]))))
                   5 7
                   (mkAppleResponse (Some 0)
                      (Some (mkReceipt (Some BUNDLE_ID) None)) None
                      (Some [mkItem (Some "com.elevenstoic.yearly") None None
                               None None None (Some "1");
                             mkItem (Some MONTHLY) None None None None None
                               (Some "0");
                             mkItem (Some MONTHLY) None None None None None
                               (Some "1")]))
                   [mkItem (Some "com.elevenstoic.yearly") None None None None None
                      (Some "1")]
                   [mkItem (Some MONTHLY) None None None None None (Some "1")]
                   (mkItem (Some MONTHLY) None None None None None (Some "0"))
                   eq_refl eq_refl eq_refl eq_refl eq_refl eq_refl eq_refl _ eq_refl)).
  intros x [<-|[]]. reflexivity.
Defined.

(** X17.  The expiry test is monotone in the clock: a subscription that
    passes it at some reading of [Date.now()] passes it at every earlier
    reading, and one that fails it fails at every later reading. *)
Theorem X17_expiry_test_monotone :
  forall (r : AppleResponse) (now1 now2 : Z),
    now1 <= now2 ->
    (active_at r now2 = true -> active_at r now1 = true) /\
    (active_at r now1 = false -> active_at r now2 = false).
Proof.
  intros r now1 now2 Hle.
  assert (H : active_at r now2 = true -> active_at r now1 = true).
  { unfold active_at, method1, check_expiry.
    destruct (latestTransaction r) as [t|]; [|discriminate].
    destruct (parseInt (expires_date_ms t)) as [|T]; [discriminate|].
    cbn [js_gt].
    destruct (T >? now2 - gracePeriod) eqn:E2; [|discriminate].
    intros _. apply Z.gtb_gt in E2.
    assert (E1 : (T >? now1 - gracePeriod) = true) by (apply Z.gtb_gt; lia).
    now rewrite E1. }
  split; [exact H|].
  intros H1. destruct (active_at r now2); [|reflexivity].
  now rewrite H in H1.
Qed.

Lemma X17_expiry_test_monotone_witness :
  1600000000000 <= 1700000000000 /\
  active_at (accepted (Some [transaction "1700000000000" "t1"]) None) 1700000000000
    = true /\
  active_at (accepted (Some [transaction "1700000000000" "t1"]) None) 1600000000000
    = true.
Proof.
  assert (Hle : 1600000000000 <= 1700000000000) by (intros H; discriminate H).
  split; [exact Hle|]. split; [reflexivity|].
  exact (proj1 (X17_expiry_test_monotone
                  (accepted (Some [transaction "1700000000000" "t1"]) None)
                  1600000000000 1700000000000 Hle) eq_refl).
Defined.

(** X18.  An active subscription is never reported with an expiry date at
    or before the grace threshold: when the verdict holds an active
    subscription with a valid [expiresDate], that date is later than the
    clock reading minus 300000 ms, and it is the parsed expiry of a
    transaction of the adopted answer for the monthly product. *)
Theorem X18_reported_expiry_is_after_threshold :
  forall (req : Request) (upstream : Upstream) (currentDate stamp : Z)
         (pid tid : option string) (d : Z) (env : Environment) (trial intro : bool),
    verdict_subscriptionInfo (response_of req upstream currentDate stamp)
      = Some (Some (ActiveSubscription pid (Some d) tid env trial intro)) ->
    d > currentDate - 300000 /\
    exists rd r t infos,
      adopted upstream rd = Some (r, env) /\
      latest_receipt_info r = Some infos /\
      In t infos /\
      is_monthly t = true /\
      parseInt (expires_date_ms t) = Num d /\
      tid = transaction_id t.
Proof.
  intros req upstream currentDate stamp pid tid d env trial intro H.
  destruct (verdict_info_detect req upstream currentDate stamp _ H)
    as (rd & r & env' & Had & Hd & _ & _).
  destruct (detect_info_cases r env' currentDate _ Hd)
    as [(t & T & Ht & ET & Hgt & E)
       |[(p & _ & E)
        |[(rs & p & _ & _ & _ & _ & E)|(_ & E)]]]; try discriminate E.
  injection E as _ Hdate -> -> _ _.
  unfold new_Date in Hdate.
  destruct (Z.abs T <=? 8640000000000000); [|discriminate].
  injection Hdate as ->.
  split; [exact Hgt|].
  destruct (latestTransaction_monthly r t Ht) as (Hm & infos & Hinfo & Hin).
  exists rd, r, t, infos. repeat split; assumption.
Qed.

Lemma X18_reported_expiry_is_after_threshold_witness :
  verdict_subscriptionInfo
    (response_of (post "receipt" None)
       (stub (inr (accepted (Some [transaction "1700000000000" "t1"]) None))
             (inl network_error))
       1700000000000 1700000000001)
  = Some (Some (ActiveSubscription (Some MONTHLY) (Some 1700000000000) (Some "t1")
                  production false false)) /\
  1700000000000 > 1700000000000 - 300000.
Proof.
  split; [reflexivity|].
  exact (proj1 (X18_reported_expiry_is_after_threshold (post "receipt" None)
                  (stub (inr (accepted (Some [transaction "1700000000000" "t1"]) None))
                        (inl network_error))
                  1700000000000 1700000000001
                  (Some MONTHLY) (Some "t1") 1700000000000 production false false
                  eq_refl)).
Defined.

(** X19.  Error answers and final verdicts never mix: a body with an
    [error] text is not valid and has no [environment], [subscriptionInfo],
    [timestamp] or [debug]; a body without one is a final verdict, with the
    [timestamp] of the run, an [environment] and a [subscriptionInfo] key
    and neither [status] nor [expired]. *)
Theorem X19_error_answers_carry_no_subscription_data :
  forall (req : Request) (upstream : Upstream) (currentDate stamp : Z)
         (v : Verdict.t),
    json (response_of req upstream currentDate stamp) = Some v ->
    (Verdict.error v <> None ->
     Verdict.isValid v <> Some true /\
     Verdict.environment v = None /\
     Verdict.subscriptionInfo v = None /\
     Verdict.timestamp v = None /\
     Verdict.debug v = None) /\
    (Verdict.error v = None ->
     Verdict.isValid v <> None /\
     Verdict.timestamp v = Some stamp /\
     Verdict.environment v <> None /\
     Verdict.subscriptionInfo v <> None /\
     Verdict.status v = None /\
     Verdict.expired v = None).
Proof.
  intros req upstream currentDate stamp v.
  assert (Herr : forall out msg st ex,
             json out = Some (Verdict.mk (Some false) (Some msg) st ex
                                None None None None) ->
             json out = Some v ->
             (Verdict.error v <> None ->
              Verdict.isValid v <> Some true /\
              Verdict.environment v = None /\
              Verdict.subscriptionInfo v = None /\
              Verdict.timestamp v = None /\
              Verdict.debug v = None) /\
             (Verdict.error v = None ->
              Verdict.isValid v <> None /\
              Verdict.timestamp v = Some stamp /\
              Verdict.environment v <> None /\
              Verdict.subscriptionInfo v <> None /\
              Verdict.status v = None /\
              Verdict.expired v = None)).
  { intros out msg st ex E1 E2. rewrite E1 in E2. injection E2 as <-.
    split; [intros _; repeat split; discriminate|discriminate]. }
  unfold response_of. rewrite handler_run.
  destruct (String.eqb (method req) "OPTIONS"); [discriminate|].
  destruct (negb (String.eqb (method req) "POST")).
  { cbn [fst res_json json]. intros H. injection H as <-.
    split; [intros _; repeat split; discriminate|discriminate]. }
  destruct (body req) as [b|]; [|eapply Herr; reflexivity].
  destruct (falsy (receiptData b)); [eapply Herr; reflexivity|].
  destruct (negb (strict_eq (bundleId b) BUNDLE_ID)); [eapply Herr; reflexivity|].
  destruct (select_environment upstream _ cors_res []) as [[e|[early|[r env]]] log];
    try (eapply Herr; reflexivity).
  cbn [fst]. unfold classify, status_failure.
  destruct (negb (status_is (status r) 0)).
  { destruct (status_is (status r) 21006); eapply Herr; reflexivity. }
  destruct (negb (strict_eq (receipt_bundle_id r) BUNDLE_ID));
    [eapply Herr; reflexivity|].
  unfold final_verdict. cbn [json res_json]. intros H. injection H as <-.
  cbn. split; [intros H; now elim H|].
  intros _. repeat split; discriminate.
Qed.

Lemma X19_error_answers_carry_no_subscription_data_witness :
  json (response_of (post "receipt" None)
          (stub (inr (status_only 21003)) (inl network_error)) 5 7)
  = Some (Verdict.mk (Some false)
            (Some "Receipt validation failed: The receipt could not be authenticated.")
            (Some 21003) None None None None None) /\
  Verdict.timestamp
    (Verdict.mk (Some false)
       (Some "Receipt validation failed: The receipt could not be authenticated.")
       (Some 21003) None None None None None) = None.
Proof.
  split; [reflexivity|].
  refine (proj1 (proj2 (proj2 (proj2
            (proj1 (X19_error_answers_carry_no_subscription_data
                      (post "receipt" None)
                      (stub (inr (status_only 21003)) (inl network_error)) 5 7
                      _ eq_refl) _))))).
  discriminate.
Defined.

(** The JSON bodies of the handler: an answer without subscription data, or
    the final verdict on an adopted answer. *)
Lemma body_cases (req : Request) (upstream : Upstream) (currentDate stamp : Z)
    (v : Verdict.t) :
  json (response_of req upstream currentDate stamp) = Some v ->
  (Verdict.environment v = None /\ Verdict.debug v = None /\
   Verdict.subscriptionInfo v = None) \/
  (exists rd r env,
      adopted upstream rd = Some (r, env) /\
      v = Verdict.mk (Some (isValidSubscription (detect r env currentDate)))
            None None None (Some env)
            (Some (subscriptionInfo (detect r env currentDate))) (Some stamp)
            (if Environment_eqb env sandbox then Some (debug_info r) else None)).
Proof.
  unfold response_of. rewrite handler_run. unfold adopted.
  destruct (String.eqb (method req) "OPTIONS"); [discriminate|].
  destruct (negb (String.eqb (method req) "POST"));
    [intros H; injection H as <-; left; repeat split|].
  destruct (body req) as [b|]; [|intros H; injection H as <-; left; repeat split].
  destruct (falsy (receiptData b));
    [intros H; injection H as <-; left; repeat split|].
  destruct (negb (strict_eq (bundleId b) BUNDLE_ID));
    [intros H; injection H as <-; left; repeat split|].
  set (rd := match receiptData b with Some s => s | None => "" end).
  destruct (select_environment upstream rd cors_res []) as [[e|[early|[r env]]] log]
    eqn:Esel; try (intros H; injection H as <-; left; repeat split).
  cbn [fst]. unfold classify, status_failure.
  destruct (negb (status_is (status r) 0)).
  { destruct (status_is (status r) 21006);
      intros H; injection H as <-; left; repeat split. }
  destruct (negb (strict_eq (receipt_bundle_id r) BUNDLE_ID));
    [intros H; injection H as <-; left; repeat split|].
  unfold final_verdict. cbn [json res_json]. intros H. injection H as <-.
  right. exists rd, r, env. rewrite Esel. split; reflexivity.
Qed.

Lemma present_nonempty_false_nil {A : Type} (xs : option (list A)) (l : list A) :
  present_nonempty xs = false -> xs = Some l -> l = [].
Proof.
  intros H ->. destruct l; [reflexivity|discriminate].
Qed.

(** X20.  The [debug] object is attached exactly to the verdicts whose
    environment is sandbox, and its flags bound what the verdict can
    report: no active subscription without [hasLatestReceiptInfo], no past
    purchase without [hasInApp], no pending renewal without
    [hasPendingRenewal]. *)
Theorem X20_debug_only_in_sandbox :
  forall (req : Request) (upstream : Upstream) (currentDate stamp : Z)
         (v : Verdict.t),
    json (response_of req upstream currentDate stamp) = Some v ->
    (Verdict.debug v <> None <-> Verdict.environment v = Some sandbox) /\
    (forall (d : Debug) (i : SubscriptionInfo),
        Verdict.debug v = Some d ->
        Verdict.subscriptionInfo v = Some (Some i) ->
        match i with
        | ActiveSubscription _ _ _ _ _ _ => hasLatestReceiptInfo d = true
        | PastPurchase _ _ _ _ => hasInApp d = true
        | PendingRenewal _ _ _ _ => hasPendingRenewal d = true
        | SandboxFallback _ _ _ => True
        end).
Proof.
  intros req upstream currentDate stamp v H.
  destruct (body_cases req upstream currentDate stamp v H)
    as [(He & Hd & Hi)|(rd & r & env & _ & ->)].
  { split.
    - rewrite He, Hd. split; [intros X; now elim X|discriminate].
    - intros d i _ Hi'. rewrite Hi in Hi'. discriminate. }
  cbn [Verdict.debug Verdict.environment Verdict.subscriptionInfo].
  split.
  - destruct env; cbn [Environment_eqb]; split;
      try discriminate; try reflexivity; intros X; now elim X.
  - intros d i Hd Hi. injection Hi as Hi.
    destruct env; cbn [Environment_eqb] in Hd; [discriminate|].
    injection Hd as <-.
    destruct (detect_info_cases r sandbox currentDate i Hi)
      as [(t & T & Ht & _ & _ & ->)
         |[(p & Hp & ->)
          |[(rs & p & _ & Hrs & Hf & _ & ->)|(_ & ->)]]];
      cbn [debug_info hasLatestReceiptInfo hasInApp hasPendingRenewal].
    + destruct (latestTransaction_monthly r t Ht) as (_ & infos & Hinfo & Hin).
      rewrite Hinfo. destruct infos; [contradiction|reflexivity].
    + unfold relevantPurchases, receipt_in_app in Hp.
      destruct (match receipt r with Some rc => in_app rc | None => None end)
        as [ps|]; [|contradiction].
      apply filter_In in Hp. destruct Hp as [Hp _].
      destruct ps; [contradiction|reflexivity].
    + rewrite Hrs. destruct rs; [discriminate|reflexivity].
    + exact I.
Qed.

Lemma X20_debug_only_in_sandbox_witness :
  json (response_of (post "receipt" None)
          (stub (inl network_error) (inr (accepted None None))) 5 7)
  = Some (Verdict.mk (Some true) None None None (Some sandbox)
            (Some (Some (SandboxFallback MONTHLY sandbox true))) (Some 7)
            (Some (mkDebug false false false))) /\
  (Verdict.debug
     (Verdict.mk (Some true) None None None (Some sandbox)
        (Some (Some (SandboxFallback MONTHLY sandbox true))) (Some 7)
        (Some (mkDebug false false false))) <> None <->
   Verdict.environment
     (Verdict.mk (Some true) None None None (Some sandbox)
        (Some (Some (SandboxFallback MONTHLY sandbox true))) (Some 7)
        (Some (mkDebug false false false))) = Some sandbox).
Proof.
  split; [reflexivity|].
  exact (proj1 (X20_debug_only_in_sandbox (post "receipt" None)
                  (stub (inl network_error) (inr (accepted None None))) 5 7
                  _ eq_refl)).
Defined.

(** ** The status table (lines 116-146) *)

Lemma statusMeanings_known (code : Z) :
  statusMeanings code <> None -> In code known_statuses.
Proof.
  destruct code as [|p|p]; try (intros H; now elim H).
  do 15 (try (destruct p as [p|p|]; try (intros H; now elim H))).
  all: intros _; simpl; tauto.
Qed.

(** X21.  The table of meanings has entries exactly for the nine statuses
    21000, 21002-21008 and 21010.  An adopted answer whose status is any
    other value than 0, or is absent, is answered
    "Receipt validation failed: Unknown error", with the status echoed
    when there is one. *)
Theorem X21_status_table :
  (forall code : Z, statusMeanings code <> None <-> In code known_statuses) /\
  (forall (r : AppleResponse) (env : Environment) (currentDate stamp : Z),
      status r <> Some 0 ->
      (forall c, status r = Some c -> ~ In c known_statuses) ->
      json (classify r env currentDate stamp cors_res) =
        Some (Verdict.mk (Some false)
                (Some "Receipt validation failed: Unknown error")
                (status r) None None None None None)).
Proof.
  split.
  - intros code. split; [apply statusMeanings_known|].
    unfold known_statuses. simpl.
    intros [<-|[<-|[<-|[<-|[<-|[<-|[<-|[<-|[<-|[]]]]]]]]]]; discriminate.
  - intros r env currentDate stamp H0 Hun.
    unfold classify, status_failure.
    rewrite (proj2 (status_is_false _ _) H0). cbn [negb].
    assert (H6 : status_is (status r) 21006 = false).
    { apply status_is_false. intros E. apply (Hun 21006 E). simpl. tauto. }
    rewrite H6.
    assert (Hm : statusMeaning (status r) = "Unknown error").
    { unfold statusMeaning. destruct (status r) as [c|]; [|reflexivity].
      destruct (statusMeanings c) eqn:E; [|reflexivity].
      exfalso. apply (Hun c eq_refl). apply statusMeanings_known.
      rewrite E. discriminate. }
    now rewrite Hm.
Qed.

Lemma X21_status_table_witness :
  status (status_only 21001) <> Some 0 /\
  json (classify (status_only 21001) production 5 7 cors_res) =
    Some (Verdict.mk (Some false)
            (Some "Receipt validation failed: Unknown error")
            (Some 21001) None None None None None).
Proof.
  assert (H0 : status (status_only 21001) <> Some 0) by discriminate.
  split; [exact H0|].
  refine (proj2 X21_status_table (status_only 21001) production 5 7 H0 _).
  intros c E. injection E as <-. simpl.
  intros [H|[H|[H|[H|[H|[H|[H|[H|[H|[]]]]]]]]]]; discriminate H.
Defined.

(** ** The selection of method 1 (lines 161-202) *)

(** C3 (as stated, refuted).  First, transactions for the product with
    expiries 1700000000000, "n/a" and 1800000000000, in this order, at the
    clock reading 1750000000000: the comparator is [NaN] on every
    neighbouring pair, the array stays as it is and the first transaction
    is selected, so the selected expiry is not the greatest and the
    subscription is not marked active although the greatest expiry passes
    the test.  Second, two transactions with expiries 1000 < 2000, long
    expired, adopted from the sandbox: the verdict says [isValid: true]
    although 2000 does not exceed the clock reading minus the grace
    period. *)
Lemma C3_counterexample :
  ~ (exists (t : Item) (T : Z),
        latestTransaction
          (accepted (Some [transaction "1700000000000" "t1";
                           transaction "n/a" "t2";
                           transaction "1800000000000" "t3"]) None) = Some t /\
        parseInt (expires_date_ms t) = Num T /\
        (forall x e,
            In x [transaction "1700000000000" "t1"; transaction "n/a" "t2";
                  transaction "1800000000000" "t3"] ->
            is_monthly x = true ->
            parseInt (expires_date_ms x) = Num e -> e <= T) /\
        isValidSubscription
          (method1 (accepted (Some [transaction "1700000000000" "t1";
                                    transaction "n/a" "t2";
                                    transaction "1800000000000" "t3"]) None)
                   production 1750000000000 initial_state)
        = (T >? 1750000000000 - gracePeriod)) /\
  latestTransaction
    (accepted (Some [transaction "1000" "t1"; transaction "2000" "t2"]) None)
  = Some (transaction "2000" "t2") /\
  verdict_isValid
    (response_of (post "receipt" None)
       (stub (inl network_error)
             (inr (accepted (Some [transaction "1000" "t1";
                                   transaction "2000" "t2"]) None)))
       1700000000000 1700000000000)
  <> Some (2000 >? 1700000000000 - gracePeriod).
Proof.
  split; [|split].
  - intros (t & T & Hl & HT & Hmax & _).
    vm_compute in Hl. injection Hl as <-.
    vm_compute in HT. injection HT as <-.
    specialize (Hmax (transaction "1800000000000" "t3") 1800000000000).
    assert (H : 1800000000000 <= 1700000000000).
    { apply Hmax; [right; right; now left|reflexivity|reflexivity]. }
    lia.
  - reflexivity.
  - vm_compute. discriminate.
Qed.

(** C3 (amended).  When [latest_receipt_info] holds at least one
    transaction for the monthly product and the [expires_date_ms] of each
    such transaction parses as a safe integer, method 1 selects a
    transaction for that product whose parsed expiry [T] is the greatest
    among them, and sets the validity flag exactly when
    [T > now - gracePeriod], with [gracePeriod] = 300000 ms.  When the test
    succeeds the state holds that transaction's data and, with status 0 and
    the right bundle id, the verdict is valid and carries it.  With status
    0 and the right bundle id the verdict's [isValid] is the outcome of the
    test, or'ed with the presence of a purchase of the product in [in_app]
    and with the environment being sandbox: it equals the outcome of the
    test in production without such a purchase. *)
Theorem C3_latest_receipt_info_selects_latest_expiry :
  forall (r : AppleResponse) (env : Environment) (currentDate : Z)
         (infos : list Item),
    latest_receipt_info r = Some infos ->
    (exists x, In x infos /\ is_monthly x = true) ->
    (forall x, In x infos -> is_monthly x = true ->
               isSafeInteger (parseInt (expires_date_ms x)) = true) ->
    exists (t : Item) (T : Z),
      latestTransaction r = Some t /\
      In t infos /\
      product_id t = Some MONTHLY /\
      parseInt (expires_date_ms t) = Num T /\
      (forall x e, In x infos -> is_monthly x = true ->
                   parseInt (expires_date_ms x) = Num e -> e <= T) /\
      isValidSubscription (method1 r env currentDate initial_state)
        = (T >? currentDate - gracePeriod) /\
      gracePeriod = 300000 /\
      (T > currentDate - gracePeriod ->
       method1 r env currentDate initial_state =
         mkState true
           (Some (ActiveSubscription (Some MONTHLY) (new_Date (Num T))
                    (transaction_id t) env
                    (strict_eq (is_trial_period t) "true")
                    (strict_eq (is_in_intro_offer_period t) "true"))) /\
       (status r = Some 0 -> receipt_bundle_id r = Some BUNDLE_ID ->
        forall stamp,
          verdict_isValid (classify r env currentDate stamp cors_res) = Some true /\
          verdict_subscriptionInfo (classify r env currentDate stamp cors_res) =
            Some (Some (ActiveSubscription (Some MONTHLY) (new_Date (Num T))
                          (transaction_id t) env
                          (strict_eq (is_trial_period t) "true")
                          (strict_eq (is_in_intro_offer_period t) "true"))))) /\
      (status r = Some 0 -> receipt_bundle_id r = Some BUNDLE_ID ->
       forall stamp,
         verdict_isValid (classify r env currentDate stamp cors_res)
         = Some ((T >? currentDate - gracePeriod)
                 || (0 <? Z.of_nat (List.length (relevantPurchases r)))
                 || Environment_eqb env sandbox)).
Proof.
  intros r env currentDate infos Hinfo Hex Hsafe.
  assert (Hparse : forall x, In x infos -> is_monthly x = true ->
                             parseInt (expires_date_ms x) <> NaN).
  { intros x Hx Hm E. pose proof (Hsafe x Hx Hm) as S.
    rewrite E in S. discriminate. }
  destruct (latestTransaction_max r infos Hinfo Hex Hparse)
    as (t & T & Hlatest & Htin & Htm & ET & Hmax).
  assert (Hpid : product_id t = Some MONTHLY) by now apply strict_eq_true.
  assert (Hflag : isValidSubscription (method1 r env currentDate initial_state)
                  = (T >? currentDate - gracePeriod)).
  { unfold method1. rewrite Hlatest. unfold check_expiry. rewrite ET.
    cbn [js_gt]. destruct (T >? currentDate - gracePeriod); reflexivity. }
  assert (Hact : T > currentDate - gracePeriod ->
                 method1 r env currentDate initial_state =
                 mkState true
                   (Some (ActiveSubscription (Some MONTHLY) (new_Date (Num T))
                            (transaction_id t) env
                            (strict_eq (is_trial_period t) "true")
                            (strict_eq (is_in_intro_offer_period t) "true")))).
  { intros Hgt. unfold method1. rewrite Hlatest. unfold check_expiry.
    rewrite ET, Hpid. cbn [js_gt].
    now rewrite (proj2 (Z.gtb_gt _ _) Hgt). }
  exists t, T.
  split; [exact Hlatest|]. split; [exact Htin|]. split; [exact Hpid|].
  split; [exact ET|]. split; [exact Hmax|].
  split; [exact Hflag|]. split; [reflexivity|]. split.
  - intros Hgt. split; [now apply Hact|].
    intros Hst Hb stamp.
    unfold classify. rewrite Hst, Hb. cbn [status_is Z.eqb negb].
    change (strict_eq (Some BUNDLE_ID) BUNDLE_ID) with true. cbn [negb].
    unfold detect. rewrite (Hact Hgt).
    rewrite later_methods_keep_valid by reflexivity.
    split; reflexivity.
  - intros Hst Hb stamp.
    unfold classify. rewrite Hst, Hb. cbn [status_is Z.eqb negb].
    change (strict_eq (Some BUNDLE_ID) BUNDLE_ID) with true. cbn [negb].
    rewrite (proj1 (final_verdict_fields _ _ _ _ _)).
    now rewrite (detect_flag r env currentDate Hb), Hflag.
Qed.

Lemma C3_latest_receipt_info_selects_latest_expiry_witness :
  latest_receipt_info
    (accepted (Some [transaction "1700000000000" "t1";
                     transaction "1800000000000" "t2"]) None)
  = Some [transaction "1700000000000" "t1"; transaction "1800000000000" "t2"] /\
  exists (t : Item) (T : Z),
    latestTransaction
      (accepted (Some [transaction "1700000000000" "t1";
                       transaction "1800000000000" "t2"]) None) = Some t /\
    parseInt (expires_date_ms t) = Num T /\
    isValidSubscription
      (method1 (accepted (Some [transaction "1700000000000" "t1";
                                transaction "1800000000000" "t2"]) None)
               production 1750000000000 initial_state)
    = (T >? 1750000000000 - gracePeriod).
Proof.
  split; [reflexivity|].
  destruct (C3_latest_receipt_info_selects_latest_expiry
              (accepted (Some [transaction "1700000000000" "t1";
                               transaction "1800000000000" "t2"]) None)
              production 1750000000000
              [transaction "1700000000000" "t1"; transaction "1800000000000" "t2"]
              eq_refl
              (ex_intro _ (transaction "1700000000000" "t1")
                 (conj (or_introl eq_refl) eq_refl)))
    as (t & T & Hl & _ & _ & Hp & _ & Hf & _).
  { intros x [<-|[<-|[]]] _; reflexivity. }
  exists t, T. split; [exact Hl|]. split; [exact Hp|exact Hf].
Defined.

(** ** Two runs at two readings of the clock *)




